(** * The control supervisor of selfdrive/controls/controlsd.py

    A shallow embedding of the [Controls] class: the engagement state
    machine ([state_transition]), the event collector ([update_events]),
    the cruise-speed arbitration ([cal_curve_speed], [cal_max_speed],
    [update_max_speed], [get_long_lead_safe_speed]), the actuator
    finiteness guard of [state_control] and the cancel flag of
    [publish_logs].

    Numbers.  Quantities the supervisor only compares, adds and scales
    (speeds, distances, set-speeds) are exact rationals [Q]: Python's
    binary64 arithmetic is idealised to exact arithmetic there.  Counters
    and frame numbers are [Z].  The actuator values handed back by the
    controllers, where infinities and NaN matter, are IEEE binary64
    numbers ([float], the kernel's primitive floats). *)

From Stdlib Require Import String ZArith QArith Qabs Lqa Lia List Bool Floats.
Import ListNotations.

Local Open Scope Z_scope.

(** ** Python built-ins used by the file *)

(** [int(x)] on a number: truncation toward zero. *)
Definition py_int (q : Q) : Z := Z.quot (Qnum q) (Zpos (Qden q)).

(** [a < b] and [a <= b] on numbers, as booleans. *)
Definition Qlt_bool (a b : Q) : bool := negb (Qle_bool b a).

(** [max(a, b)]: the first argument unless the second is strictly larger. *)
Definition py_max (a b : Q) : Q := if Qlt_bool a b then b else a.

(** [min(a, b)]: the first argument unless the second is strictly smaller. *)
Definition py_min (a b : Q) : Q := if Qlt_bool b a then b else a.

(** [DT_CTRL] of common.realtime: the supervisor runs at 100 Hz. *)
Definition DT_CTRL : Q := 1 # 100.

(** [SOFT_DISABLE_TIME = 3  # seconds] *)
Definition SOFT_DISABLE_TIME : Q := 3.

Lemma Qlt_bool_iff (a b : Q) : Qlt_bool a b = true <-> (a < b)%Q.
Proof.
  unfold Qlt_bool. rewrite negb_true_iff.
  split; intro H.
  - apply Qnot_le_lt. intro L. apply Qle_bool_iff in L. congruence.
  - destruct (Qle_bool b a) eqn:E; [|reflexivity].
    apply Qle_bool_iff in E. exfalso. exact (Qlt_not_le _ _ H E).
Qed.

Lemma Qlt_bool_false_iff (a b : Q) : Qlt_bool a b = false <-> (b <= a)%Q.
Proof.
  unfold Qlt_bool. rewrite negb_false_iff. apply Qle_bool_iff.
Qed.

(** [py_max] is the larger and [py_min] the smaller of its arguments. *)
Lemma py_max_spec (a b : Q) :
  (a <= py_max a b /\ b <= py_max a b)%Q
  /\ (py_max a b = a \/ py_max a b = b).
Proof.
  unfold py_max. destruct (Qlt_bool a b) eqn:E.
  - apply Qlt_bool_iff in E. repeat split; auto; lra.
  - apply Qlt_bool_false_iff in E. repeat split; auto; lra.
Qed.

Lemma py_min_spec (a b : Q) :
  (py_min a b <= a /\ py_min a b <= b)%Q
  /\ (py_min a b = a \/ py_min a b = b).
Proof.
  unfold py_min. destruct (Qlt_bool b a) eqn:E.
  - apply Qlt_bool_iff in E. repeat split; auto; lra.
  - apply Qlt_bool_false_iff in E. repeat split; auto; lra.
Qed.

(** ** Enumerations of the message schema *)

(** [State = log.ControlsState.OpenpilotState] *)
Module State.
Inductive t : Set := disabled | preEnabled | enabled | softDisabling.

Definition eqb (a b : t) : bool :=
  match a, b with
  | disabled, disabled | preEnabled, preEnabled
  | enabled, enabled | softDisabling, softDisabling => true
  | _, _ => false
  end.

Lemma state_eqb_eq a b : eqb a b = true <-> a = b.
Proof. destruct a, b; simpl; split; congruence. Qed.
End State.

(** [ET] of selfdrive.controls.lib.events: the alert types an event carries. *)
Module ET.
Inductive t : Set :=
| ENABLE | PRE_ENABLE | NO_ENTRY | WARNING
| USER_DISABLE | SOFT_DISABLE | IMMEDIATE_DISABLE | PERMANENT.

Definition eqb (a b : t) : bool :=
  match a, b with
  | ENABLE, ENABLE | PRE_ENABLE, PRE_ENABLE | NO_ENTRY, NO_ENTRY
  | WARNING, WARNING | USER_DISABLE, USER_DISABLE
  | SOFT_DISABLE, SOFT_DISABLE | IMMEDIATE_DISABLE, IMMEDIATE_DISABLE
  | PERMANENT, PERMANENT => true
  | _, _ => false
  end.
End ET.

(** [EventName = car.CarEvent.EventName]: the kinds this file raises, and
    [other n] for the kinds that only arrive through [CS.events], the
    driver-monitoring events and the startup event. *)
Module EventName.
Inductive t : Set :=
| controlsInitializing | lowBattery | overheat | outOfSpace | lowMemory
| fanMalfunction | calibrationIncomplete | calibrationInvalid
| laneChangeBlocked | preLaneChangeLeft | preLaneChangeRight | laneChange
| canError | controlsMismatch | relayMalfunction | radarFault | usbError
| commIssue | vehicleModelInvalid | plannerError | sensorDataInvalid
| posenetInvalid | deviceFalling | cruiseMismatch | fcw
| slowingDownSpeedSound | slowingDownSpeed
| roadCameraError | wideRoadCameraError | driverCameraError
| cameraMalfunction | modeldLagging | localizerMalfunction
| processNotRunning | steerSaturated | ldw
| buttonEnable | buttonCancel
| other (n : nat).

Definition eq_dec (a b : t) : {a = b} + {a <> b}.
Proof. decide equality. apply Nat.eq_dec. Defined.

Definition eqb (a b : t) : bool := if eq_dec a b then true else false.
End EventName.

(** [ButtonEvent = car.CarState.ButtonEvent] *)
Module ButtonEvent.
Inductive Type_ : Set :=
| unknown | leftBlinker | rightBlinker | accelCruise | decelCruise | cancel.

Record t : Set := mk { type : Type_; pressed : bool }.
End ButtonEvent.

(** [SafetyModel = car.CarParams.SafetyModel]; [other n] stands for the
    car-specific models. *)
Module SafetyModel.
Inductive t : Set := silent | noOutput | other (n : nat).

Definition eqb (a b : t) : bool :=
  match a, b with
  | silent, silent | noOutput, noOutput => true
  | other n, other m => Nat.eqb n m
  | _, _ => false
  end.

Lemma safety_eqb_eq a b : eqb a b = true <-> a = b.
Proof.
  destruct a, b; simpl; split; try congruence.
  - intro H. apply Nat.eqb_eq in H. congruence.
  - intro H. inversion H. apply Nat.eqb_refl.
Qed.
End SafetyModel.

(** [IGNORED_SAFETY_MODES = [SafetyModel.silent, SafetyModel.noOutput]] *)
Definition IGNORED_SAFETY_MODES : list SafetyModel.t :=
  [SafetyModel.silent; SafetyModel.noOutput].

Definition safety_in (m : SafetyModel.t) (l : list SafetyModel.t) : bool :=
  existsb (SafetyModel.eqb m) l.

(** ** The per-tick input snapshot *)

(** The fields of [CarState] the supervisor reads. *)
Record CarState : Type := mkCarState {
  vEgo : Q;
  aEgo : Q;
  CS_steeringAngleDeg : float;
  buttonEvents : list ButtonEvent.t;
  CS_events : list EventName.t;
  adaptiveCruise : bool;
  regenPressed : bool;
  cruiseState_enabled : bool;
  canValid : bool;
  brakePressed : bool;
  leftBlindspot : bool;
  rightBlindspot : bool;
  leftBlinker : bool;
  rightBlinker : bool;
  steeringPressed : bool;
  steerWarning : bool;
  steerError : bool
}.

(** A sample snapshot: 20 m/s, adaptive cruise on, CAN valid, nothing
    pressed. *)
Definition sample_CS : CarState :=
  mkCarState 20 0 0%float [] [] true false false true false false false
    false false false false false.

(** [self.button_timers]: a dict with the two fixed keys [decelCruise]
    and [accelCruise]; no key is ever added. *)
Record ButtonTimers : Set := mkTimers { t_decelCruise : Z; t_accelCruise : Z }.

(** ** The engagement state machine *)

Module Engagement.

(** The attributes of [self] that [state_transition] and the gate of
    [step] read or write. *)
Record Controls : Type := mkControls {
  read_only : bool;
  is_metric : bool;
  initialized : bool;
  state : State.t;
  enabled : bool;
  active : bool;
  soft_disable_timer : Z;
  v_cruise_kph : Q;
  v_cruise_kph_last : Q;
  events : list EventName.t;
  current_alert_types : list ET.t;
  button_timers : ButtonTimers
}.

Definition set_initialized (s : Controls) (v : bool) : Controls :=
  mkControls (read_only s) (is_metric s) v (state s) (enabled s) (active s)
    (soft_disable_timer s) (v_cruise_kph s) (v_cruise_kph_last s) (events s)
    (current_alert_types s) (button_timers s).

Definition set_state (s : Controls) (v : State.t) : Controls :=
  mkControls (read_only s) (is_metric s) (initialized s) v (enabled s) (active s)
    (soft_disable_timer s) (v_cruise_kph s) (v_cruise_kph_last s) (events s)
    (current_alert_types s) (button_timers s).

Definition set_enabled (s : Controls) (v : bool) : Controls :=
  mkControls (read_only s) (is_metric s) (initialized s) (state s) v (active s)
    (soft_disable_timer s) (v_cruise_kph s) (v_cruise_kph_last s) (events s)
    (current_alert_types s) (button_timers s).

Definition set_active (s : Controls) (v : bool) : Controls :=
  mkControls (read_only s) (is_metric s) (initialized s) (state s) (enabled s) v
    (soft_disable_timer s) (v_cruise_kph s) (v_cruise_kph_last s) (events s)
    (current_alert_types s) (button_timers s).

Definition set_soft_disable_timer (s : Controls) (v : Z) : Controls :=
  mkControls (read_only s) (is_metric s) (initialized s) (state s) (enabled s)
    (active s) v (v_cruise_kph s) (v_cruise_kph_last s) (events s)
    (current_alert_types s) (button_timers s).

Definition set_v_cruise_kph (s : Controls) (v : Q) : Controls :=
  mkControls (read_only s) (is_metric s) (initialized s) (state s) (enabled s)
    (active s) (soft_disable_timer s) v (v_cruise_kph_last s) (events s)
    (current_alert_types s) (button_timers s).

Definition set_v_cruise_kph_last (s : Controls) (v : Q) : Controls :=
  mkControls (read_only s) (is_metric s) (initialized s) (state s) (enabled s)
    (active s) (soft_disable_timer s) (v_cruise_kph s) v (events s)
    (current_alert_types s) (button_timers s).

Definition set_events (s : Controls) (v : list EventName.t) : Controls :=
  mkControls (read_only s) (is_metric s) (initialized s) (state s) (enabled s)
    (active s) (soft_disable_timer s) (v_cruise_kph s) (v_cruise_kph_last s) v
    (current_alert_types s) (button_timers s).

Definition set_current_alert_types (s : Controls) (v : list ET.t) : Controls :=
  mkControls (read_only s) (is_metric s) (initialized s) (state s) (enabled s)
    (active s) (soft_disable_timer s) (v_cruise_kph s) (v_cruise_kph_last s)
    (events s) v (button_timers s).

Definition set_button_timers (s : Controls) (v : ButtonTimers) : Controls :=
  mkControls (read_only s) (is_metric s) (initialized s) (state s) (enabled s)
    (active s) (soft_disable_timer s) (v_cruise_kph s) (v_cruise_kph_last s)
    (events s) (current_alert_types s) v.

(** [self.current_alert_types.append(et)] *)
Definition append_alert (s : Controls) (et : ET.t) : Controls :=
  set_current_alert_types s (current_alert_types s ++ [et]).

(** The values [Controls.__init__] assigns (lines 159-166, 211, 213);
    [read_only] and [is_metric] come from the car and the parameters. *)
Definition init (ro metric : bool) : Controls :=
  mkControls ro metric false State.disabled false false 0 255 0 []
    [ET.PERMANENT] (mkTimers 0 0).

(** What one tick brings: the sampled [CarState], the events collected
    by [update_events], and the inputs of the initialisation gate of
    [data_sample]. *)
Record Tick : Type := mkTick {
  CS : CarState;
  collected : list EventName.t;
  all_valid : bool;
  sm_frame : Z
}.

Section machine.

(** The [EVENTS] table of selfdrive/controls/lib/events.py: the alert
    types attached to each event kind. *)
Variable EVENTS : EventName.t -> list ET.t.

(** Helpers of selfdrive/controls/lib/drive_helpers.py. *)
Variable update_v_cruise :
  Q -> list ButtonEvent.t -> ButtonTimers -> bool -> bool -> Q.
Variable update_v_cruise_regen : Q -> Q -> bool -> bool -> Q.
Variable initialize_v_cruise : Q -> list ButtonEvent.t -> Q -> Q.

(** [SIMULATION = "SIMULATION" in os.environ] *)
Variable SIMULATION : bool.

(** Modelled from the spec: [Events.any(event_type)] of
    selfdrive/controls/lib/events.py, which is not in the sources: it
    scans the set for an event that carries the alert type. *)
Definition any_event (evs : list EventName.t) (et : ET.t) : bool :=
  existsb (fun e => existsb (ET.eqb et) (EVENTS e)) evs.

Definition any (self : Controls) (et : ET.t) : bool :=
  any_event (events self) et.

(** Lines 640-646 of [state_transition]: the operator set-speed. *)
Definition update_cruise (self : Controls) (CS : CarState) : Controls :=
  if adaptiveCruise CS then
    let self :=
      set_v_cruise_kph self
        (update_v_cruise (v_cruise_kph self) (buttonEvents CS)
           (button_timers self) (enabled self) (is_metric self)) in
    if regenPressed CS then
      set_v_cruise_kph self
        (update_v_cruise_regen (vEgo CS) (v_cruise_kph self)
           (regenPressed CS) (enabled self))
    else self
  else if negb (adaptiveCruise CS) && cruiseState_enabled CS then
    set_v_cruise_kph self 30
  else self.

(** Lines 654-704 of [state_transition]: the transition proper. *)
Definition transition (self : Controls) (CS : CarState) : Controls :=
  if negb (State.eqb (state self) State.disabled) then
    if any self ET.USER_DISABLE then
      append_alert (set_state self State.disabled) ET.USER_DISABLE
    else if any self ET.IMMEDIATE_DISABLE then
      append_alert (set_state self State.disabled) ET.IMMEDIATE_DISABLE
    else
      if State.eqb (state self) State.enabled then
        if any self ET.SOFT_DISABLE then
          append_alert
            (set_soft_disable_timer (set_state self State.softDisabling)
               (py_int (SOFT_DISABLE_TIME / DT_CTRL)))
            ET.SOFT_DISABLE
        else self
      else if State.eqb (state self) State.softDisabling then
        if negb (any self ET.SOFT_DISABLE) then
          set_state self State.enabled
        else if any self ET.SOFT_DISABLE && (soft_disable_timer self >? 0) then
          append_alert self ET.SOFT_DISABLE
        else if soft_disable_timer self <=? 0 then
          set_state self State.disabled
        else self
      else if State.eqb (state self) State.preEnabled then
        if negb (any self ET.PRE_ENABLE) then
          set_state self State.enabled
        else append_alert self ET.PRE_ENABLE
      else self
  else if State.eqb (state self) State.disabled then
    if any self ET.ENABLE then
      if any self ET.NO_ENTRY then
        append_alert self ET.NO_ENTRY
      else
        let self :=
          if any self ET.PRE_ENABLE then set_state self State.preEnabled
          else set_state self State.enabled in
        let self := append_alert self ET.ENABLE in
        set_v_cruise_kph self
          (initialize_v_cruise (vEgo CS) (buttonEvents CS)
             (v_cruise_kph_last self))
    else self
  else self.

(** [state_transition(self, CS)], lines 635-712: the set-speed update,
    the timer decrement, the transition, then the two flags. *)
Definition state_transition (self : Controls) (CS : CarState) : Controls :=
  let self := set_v_cruise_kph_last self (v_cruise_kph self) in
  let self := update_cruise self CS in
  let self :=
    set_soft_disable_timer self (Z.max 0 (soft_disable_timer self - 1)) in
  let self := set_current_alert_types self [ET.PERMANENT] in
  let self := transition self CS in
  let self :=
    set_active self
      (State.eqb (state self) State.enabled
       || State.eqb (state self) State.softDisabling) in
  let self := if active self then append_alert self ET.WARNING else self in
  set_enabled self (active self || State.eqb (state self) State.preEnabled).

(** The part of [data_sample] (lines 578-583) that opens the
    initialisation gate. *)
Definition data_sample (self : Controls) (t : Tick) : Controls :=
  let all_valid := canValid (CS t) && all_valid t in
  if negb (initialized self)
     && (all_valid
         || Qlt_bool (35 # 10) (inject_Z (sm_frame t) * DT_CTRL)
         || SIMULATION)
  then set_initialized self true
  else self.

(** [update_button_timers(self, buttonEvents)], lines 804-812. *)
Definition bump (n : Z) : Z := if n >? 0 then n + 1 else n.

Definition press (bt : ButtonTimers) (b : ButtonEvent.t) : ButtonTimers :=
  let v := if ButtonEvent.pressed b then 1 else 0 in
  match ButtonEvent.type b with
  | ButtonEvent.decelCruise => mkTimers v (t_accelCruise bt)
  | ButtonEvent.accelCruise => mkTimers (t_decelCruise bt) v
  | _ => bt
  end.

Definition update_button_timers (self : Controls)
    (bs : list ButtonEvent.t) : Controls :=
  let bt := button_timers self in
  let bt := mkTimers (bump (t_decelCruise bt)) (bump (t_accelCruise bt)) in
  set_button_timers self (fold_left press bs bt).

(** [step(self)], lines 975-999, on the attributes above.  The event set
    is rebuilt by [update_events]; [state_control] and [publish_logs] run
    between the transition and the timers but leave [state], [enabled],
    [active], [initialized] and [soft_disable_timer] as they are. *)
Definition step (self : Controls) (t : Tick) : Controls :=
  let self := data_sample self t in
  let self := set_events self (collected t) in
  let self :=
    if negb (read_only self) && initialized self
    then state_transition self (CS t)
    else self in
  update_button_timers self (buttonEvents (CS t)).

(** [controlsd_thread]: the ticks of a run, in order. *)
Definition run (self : Controls) (ts : list Tick) : Controls :=
  fold_left step ts self.

(** The supervisor states some sequence of ticks leads to. *)
Inductive reachable : Controls -> Prop :=
| reach_init (ro metric : bool) : reachable (init ro metric)
| reach_step (s : Controls) (t : Tick) :
    reachable s -> reachable (step s t).


(** *** What each block of the transition leaves alone *)

Lemma soft_disable_ticks : py_int (SOFT_DISABLE_TIME / DT_CTRL) = 300.
Proof. reflexivity. Qed.

(** The state [transition] starts from inside [state_transition]. *)
Definition staged (self : Controls) (CS : CarState) : Controls :=
  let self := set_v_cruise_kph_last self (v_cruise_kph self) in
  let self := update_cruise self CS in
  let self :=
    set_soft_disable_timer self (Z.max 0 (soft_disable_timer self - 1)) in
  set_current_alert_types self [ET.PERMANENT].

Lemma update_cruise_frame self cs :
  read_only (update_cruise self cs) = read_only self
  /\ initialized (update_cruise self cs) = initialized self
  /\ state (update_cruise self cs) = state self
  /\ soft_disable_timer (update_cruise self cs) = soft_disable_timer self
  /\ events (update_cruise self cs) = events self.
Proof.
  unfold update_cruise.
  destruct (adaptiveCruise cs), (regenPressed cs), (cruiseState_enabled cs);
    cbn; repeat split.
Qed.

Lemma staged_frame self cs :
  read_only (staged self cs) = read_only self
  /\ initialized (staged self cs) = initialized self
  /\ state (staged self cs) = state self
  /\ soft_disable_timer (staged self cs)
     = Z.max 0 (soft_disable_timer self - 1)
  /\ events (staged self cs) = events self.
Proof.
  unfold staged; cbv zeta; cbn.
  destruct (update_cruise_frame
              (set_v_cruise_kph_last self (v_cruise_kph self)) cs)
    as (H1 & H2 & H3 & H4 & H5).
  rewrite H1, H2, H3, H4, H5. cbn. repeat split.
Qed.

Lemma transition_frame self cs :
  read_only (transition self cs) = read_only self
  /\ initialized (transition self cs) = initialized self.
Proof.
  unfold transition, append_alert.
  repeat match goal with
  | |- context [if ?b then _ else _] => destruct b; cbn
  end; split; reflexivity.
Qed.

Lemma state_transition_unfold self cs :
  let x := transition (staged self cs) cs in
  read_only (state_transition self cs) = read_only x
  /\ initialized (state_transition self cs) = initialized x
  /\ state (state_transition self cs) = state x
  /\ soft_disable_timer (state_transition self cs) = soft_disable_timer x
  /\ active (state_transition self cs)
     = State.eqb (state x) State.enabled
       || State.eqb (state x) State.softDisabling
  /\ enabled (state_transition self cs)
     = State.eqb (state x) State.enabled
       || State.eqb (state x) State.softDisabling
       || State.eqb (state x) State.preEnabled.
Proof.
  unfold state_transition. fold (staged self cs). cbv zeta.
  generalize (transition (staged self cs) cs). intro x. cbn.
  destruct (State.eqb (state x) State.enabled
            || State.eqb (state x) State.softDisabling); cbn; repeat split.
Qed.

(** The transition out of [softDisabling] when no user or immediate
    disable is present. *)
Lemma transition_softDisabling x cs :
  state x = State.softDisabling ->
  any x ET.USER_DISABLE = false ->
  any x ET.IMMEDIATE_DISABLE = false ->
  state (transition x cs)
  = (if negb (any x ET.SOFT_DISABLE) then State.enabled
     else if soft_disable_timer x >? 0 then State.softDisabling
     else State.disabled)
  /\ soft_disable_timer (transition x cs) = soft_disable_timer x.
Proof.
  intros Hs Hu Hi. unfold transition. rewrite Hs, Hu, Hi. cbn.
  destruct (any x ET.SOFT_DISABLE); cbn; [|auto].
  destruct (soft_disable_timer x >? 0) eqn:Hp; cbn; [auto|].
  destruct (soft_disable_timer x <=? 0) eqn:Hq; cbn; [auto|].
  apply Z.leb_gt in Hq. rewrite Z.gtb_ltb in Hp. apply Z.ltb_ge in Hp. lia.
Qed.

(** The transition out of [enabled] on a soft disable. *)
Lemma transition_enabled_soft x cs :
  state x = State.enabled ->
  any x ET.USER_DISABLE = false ->
  any x ET.IMMEDIATE_DISABLE = false ->
  any x ET.SOFT_DISABLE = true ->
  state (transition x cs) = State.softDisabling
  /\ soft_disable_timer (transition x cs) = 300.
Proof.
  intros Hs Hu Hi Hd. unfold transition. rewrite Hs, Hu, Hi, Hd. cbn.
  split; reflexivity.
Qed.

Lemma transition_timer_nonneg x cs :
  0 <= soft_disable_timer x -> 0 <= soft_disable_timer (transition x cs).
Proof.
  intro H. unfold transition, append_alert.
  repeat match goal with
  | |- context [if ?b then _ else _] => destruct b; cbn
  end; first [assumption | now vm_compute].
Qed.

(** *** What the other phases of a tick leave alone *)

Lemma update_button_timers_frame self bs :
  read_only (update_button_timers self bs) = read_only self
  /\ initialized (update_button_timers self bs) = initialized self
  /\ state (update_button_timers self bs) = state self
  /\ enabled (update_button_timers self bs) = enabled self
  /\ active (update_button_timers self bs) = active self
  /\ soft_disable_timer (update_button_timers self bs)
     = soft_disable_timer self.
Proof. unfold update_button_timers; cbn; repeat split. Qed.

Lemma data_sample_frame self t :
  read_only (data_sample self t) = read_only self
  /\ state (data_sample self t) = state self
  /\ enabled (data_sample self t) = enabled self
  /\ active (data_sample self t) = active self
  /\ soft_disable_timer (data_sample self t) = soft_disable_timer self
  /\ (initialized self = true -> initialized (data_sample self t) = true).
Proof.
  unfold data_sample.
  destruct (negb (initialized self) && _); cbn; repeat split; auto.
Qed.

(** The state a tick hands to [state_transition]. *)
Definition sampled (self : Controls) (t : Tick) : Controls :=
  set_events (data_sample self t) (collected t).

Lemma step_unfold self t :
  step self t
  = update_button_timers
      (if negb (read_only self) && initialized (data_sample self t)
       then state_transition (sampled self t) (CS t)
       else sampled self t)
      (buttonEvents (CS t)).
Proof.
  unfold step, sampled. cbv zeta. cbn.
  destruct (data_sample_frame self t) as (-> & _). reflexivity.
Qed.

(** *** The invariant of the reachable states *)

Definition inv (s : Controls) : Prop :=
  active s
  = State.eqb (state s) State.enabled
    || State.eqb (state s) State.softDisabling
  /\ enabled s
     = State.eqb (state s) State.enabled
       || State.eqb (state s) State.softDisabling
       || State.eqb (state s) State.preEnabled
  /\ (state s <> State.disabled ->
      initialized s = true /\ read_only s = false)
  /\ 0 <= soft_disable_timer s.

Lemma init_inv ro metric : inv (init ro metric).
Proof. unfold inv; cbn. repeat split; try congruence; lia. Qed.

Lemma step_inv s t : inv s -> inv (step s t).
Proof.
  intros (Ha & He & Hg & Ht).
  rewrite step_unfold.
  destruct (update_button_timers_frame
    (if negb (read_only s) && initialized (data_sample s t)
     then state_transition (sampled s t) (CS t) else sampled s t)
    (buttonEvents (CS t))) as (B1 & B2 & B3 & B4 & B5 & B6).
  unfold inv. rewrite B1, B2, B3, B4, B5, B6. clear B1 B2 B3 B4 B5 B6.
  destruct (data_sample_frame s t) as (D1 & D2 & D3 & D4 & D5 & D6).
  destruct (negb (read_only s) && initialized (data_sample s t)) eqn:G.
  - apply andb_true_iff in G. destruct G as [Gr Gi].
    apply negb_true_iff in Gr.
    destruct (state_transition_unfold (sampled s t) (CS t))
      as (U1 & U2 & U3 & U4 & U5 & U6).
    destruct (transition_frame (staged (sampled s t) (CS t)) (CS t))
      as (F1 & F2).
    destruct (staged_frame (sampled s t) (CS t)) as (S1 & S2 & S3 & S4 & S5).
    rewrite U1, U2, U3, U4, U5, U6, F1, F2, S1, S2.
    split; [reflexivity | split; [reflexivity | split]].
    + intros _. unfold sampled; cbn. rewrite D1. split; assumption.
    + apply transition_timer_nonneg. rewrite S4. lia.
  - unfold sampled; cbn. rewrite D1, D2, D3, D4, D5.
    split; [assumption | split; [assumption | split; [|assumption]]].
    intro Hn. exfalso. destruct (Hg Hn) as [Hi Hr].
    rewrite Hr, (D6 Hi) in G. discriminate.
Qed.

Lemma reachable_inv s : reachable s -> inv s.
Proof.
  induction 1 as [ro metric | s t _ IH]; [apply init_inv | now apply step_inv].
Qed.

Lemma run_reachable ts : forall s, reachable s -> reachable (run s ts).
Proof.
  induction ts as [| t ts IH]; intros s H; cbn; [assumption|].
  apply IH. now constructor.
Qed.

(** The gate of [step] is open in every reachable state that is not
    [disabled]. *)
Lemma step_engaged s t :
  reachable s -> state s <> State.disabled ->
  step s t
  = update_button_timers (state_transition (sampled s t) (CS t))
      (buttonEvents (CS t)).
Proof.
  intros Hr Hn. rewrite step_unfold.
  destruct (reachable_inv s Hr) as (_ & _ & Hg & _).
  destruct (Hg Hn) as [Hi Hro].
  destruct (data_sample_frame s t) as (_ & _ & _ & _ & _ & D6).
  rewrite Hro, (D6 Hi). reflexivity.
Qed.

(** A tick carrying a soft disable and neither a user nor an immediate
    disable. *)
Definition soft_only (t : Tick) : bool :=
  any_event (collected t) ET.SOFT_DISABLE
  && negb (any_event (collected t) ET.USER_DISABLE)
  && negb (any_event (collected t) ET.IMMEDIATE_DISABLE).

Lemma soft_only_spec t :
  soft_only t = true ->
  any_event (collected t) ET.SOFT_DISABLE = true
  /\ any_event (collected t) ET.USER_DISABLE = false
  /\ any_event (collected t) ET.IMMEDIATE_DISABLE = false.
Proof.
  unfold soft_only. intro H.
  apply andb_true_iff in H. destruct H as [H H3].
  apply andb_true_iff in H. destruct H as [H1 H2].
  apply negb_true_iff in H2, H3. auto.
Qed.

(** State and timer after a tick taken in [softDisabling] without user or
    immediate disable. *)
Lemma step_softDisabling s t :
  reachable s -> state s = State.softDisabling ->
  any_event (collected t) ET.USER_DISABLE = false ->
  any_event (collected t) ET.IMMEDIATE_DISABLE = false ->
  state (step s t)
  = (if negb (any_event (collected t) ET.SOFT_DISABLE) then State.enabled
     else if Z.max 0 (soft_disable_timer s - 1) >? 0
          then State.softDisabling
          else State.disabled)
  /\ soft_disable_timer (step s t) = Z.max 0 (soft_disable_timer s - 1).
Proof.
  intros Hr Hs Hu Hi.
  rewrite step_engaged by (assumption || congruence).
  destruct (update_button_timers_frame
              (state_transition (sampled s t) (CS t)) (buttonEvents (CS t)))
    as (_ & _ & -> & _ & _ & ->).
  destruct (state_transition_unfold (sampled s t) (CS t))
    as (_ & _ & -> & -> & _ & _).
  destruct (staged_frame (sampled s t) (CS t)) as (_ & _ & S3 & S4 & S5).
  destruct (data_sample_frame s t) as (_ & D2 & _ & _ & D5 & _).
  assert (Hst : state (staged (sampled s t) (CS t)) = State.softDisabling)
    by (rewrite S3; unfold sampled; cbn; congruence).
  assert (Hev : events (staged (sampled s t) (CS t)) = collected t)
    by (rewrite S5; reflexivity).
  destruct (transition_softDisabling (staged (sampled s t) (CS t)) (CS t) Hst)
    as [E1 E2]; try (unfold any; rewrite Hev; assumption).
  rewrite E1, E2. unfold any. rewrite Hev, S4.
  unfold sampled; cbn. rewrite D5. split; reflexivity.
Qed.

(** State and timer after the tick that enters [softDisabling]. *)
Lemma step_enter_softDisabling s t :
  reachable s -> state s = State.enabled -> soft_only t = true ->
  state (step s t) = State.softDisabling
  /\ soft_disable_timer (step s t) = 300.
Proof.
  intros Hr Hs Ht. apply soft_only_spec in Ht. destruct Ht as (Hd & Hu & Hi).
  rewrite step_engaged by (assumption || congruence).
  destruct (update_button_timers_frame
              (state_transition (sampled s t) (CS t)) (buttonEvents (CS t)))
    as (_ & _ & -> & _ & _ & ->).
  destruct (state_transition_unfold (sampled s t) (CS t))
    as (_ & _ & -> & -> & _ & _).
  destruct (staged_frame (sampled s t) (CS t)) as (_ & _ & S3 & _ & S5).
  destruct (data_sample_frame s t) as (_ & D2 & _ & _ & _ & _).
  apply transition_enabled_soft; unfold any; try rewrite S5; try assumption.
  rewrite S3. unfold sampled; cbn. congruence.
Qed.

(** While the soft disable persists the timer counts down and the state
    stays [softDisabling] as long as the timer has not run out. *)
Lemma soft_disabling_countdown ts : forall s,
  reachable s -> state s = State.softDisabling ->
  forallb soft_only ts = true ->
  Z.of_nat (length ts) < soft_disable_timer s ->
  state (run s ts) = State.softDisabling
  /\ soft_disable_timer (run s ts)
     = soft_disable_timer s - Z.of_nat (length ts).
Proof.
  induction ts as [| t ts IH]; intros s Hr Hs Hall Hlen.
  - cbn. split; [assumption | lia].
  - cbn [forallb] in Hall. apply andb_true_iff in Hall.
    destruct Hall as [Ht Hall].
    destruct (soft_only_spec t Ht) as (Hd & Hu & Hi).
    destruct (step_softDisabling s t Hr Hs Hu Hi) as [E1 E2].
    rewrite Hd in E1. cbn [negb] in E1.
    cbn [length] in Hlen.
    assert (Hpos : (Z.max 0 (soft_disable_timer s - 1) >? 0) = true)
      by (apply Z.gtb_lt; lia).
    rewrite Hpos in E1.
    cbn [run fold_left]. fold (run (step s t) ts).
    destruct (IH (step s t)) as [I1 I2];
      [now constructor | assumption | assumption | rewrite E2; lia |].
    split; [assumption|]. rewrite I2, E2. cbn [length]. lia.
Qed.

(** *** The claims on the state machine *)

(** C2.  In every reachable supervisor state (the initial state of
    [__init__], then any sequence of ticks), [enabled] holds exactly when
    the engagement state is [preEnabled], [enabled] or [softDisabling],
    and [active] holds exactly when it is [enabled] or [softDisabling]. *)
Theorem enabled_active_invariant (s : Controls) :
  reachable s ->
  (enabled s = true <->
   state s = State.preEnabled \/ state s = State.enabled
   \/ state s = State.softDisabling)
  /\ (active s = true <->
      state s = State.enabled \/ state s = State.softDisabling).
Proof.
  intro Hr. destruct (reachable_inv s Hr) as (Ha & He & _ & _).
  rewrite Ha, He.
  destruct (state s); cbn; split; split; intro H;
    try discriminate; try reflexivity; auto;
    repeat match goal with
    | H : _ \/ _ |- _ => destruct H
    end; discriminate.
Qed.

(** C3, as amended.  When a tick takes the state from [enabled] to
    [softDisabling] (a soft disable and neither a user nor an immediate
    disable), and every later tick carries a soft disable and neither a
    user nor an immediate disable, the state is [softDisabling] after
    each of the next 299 ticks and [disabled] after the 300th tick that
    follows the entry tick, which is the 301st tick when the entry tick
    is counted as the first. *)
Theorem soft_disable_timeout (s : Controls) (entry : Tick) (ts : list Tick) :
  reachable s -> state s = State.enabled ->
  soft_only entry = true -> forallb soft_only ts = true ->
  state (step s entry) = State.softDisabling
  /\ ((length ts < 300)%nat ->
      state (run (step s entry) ts) = State.softDisabling)
  /\ (length ts = 300%nat ->
      state (run (step s entry) ts) = State.disabled).
Proof.
  intros Hr Hs He Hall.
  destruct (step_enter_softDisabling s entry Hr Hs He) as [E1 E2].
  assert (Hr1 : reachable (step s entry)) by now constructor.
  split; [assumption | split].
  - intro Hlen.
    apply soft_disabling_countdown; try assumption. rewrite E2. lia.
  - intro Hlen.
    destruct (exists_last (l := ts)) as (l & t & ->);
      [intro E; rewrite E in Hlen; discriminate |].
    rewrite length_app in Hlen. cbn in Hlen.
    rewrite forallb_app in Hall. apply andb_true_iff in Hall.
    destruct Hall as [Hl Ht]. cbn in Ht. rewrite andb_true_r in Ht.
    destruct (soft_only_spec t Ht) as (Hd & Hu & Hi).
    destruct (soft_disabling_countdown l (step s entry) Hr1 E1 Hl)
      as [I1 I2]; [rewrite E2; lia |].
    unfold run. rewrite fold_left_app. cbn [fold_left].
    fold (run (step s entry) l).
    destruct (step_softDisabling (run (step s entry) l) t) as [F1 _];
      try assumption; [now apply run_reachable |].
    rewrite F1, Hd, I2, E2. cbn [negb].
    replace (300 - Z.of_nat (length l) - 1) with 0 by lia.
    reflexivity.
Qed.

(** C8, as amended.  On a tick taken in [softDisabling] whose collected
    events carry no soft disable, no user disable and no immediate
    disable, the state at the end of the tick is [enabled]. *)
Theorem soft_disable_recovery (s : Controls) (t : Tick) :
  reachable s -> state s = State.softDisabling ->
  any_event (collected t) ET.SOFT_DISABLE = false ->
  any_event (collected t) ET.USER_DISABLE = false ->
  any_event (collected t) ET.IMMEDIATE_DISABLE = false ->
  state (step s t) = State.enabled.
Proof.
  intros Hr Hs Hd Hu Hi.
  destruct (step_softDisabling s t Hr Hs Hu Hi) as [E _].
  rewrite E, Hd. reflexivity.
Qed.

End machine.

(** *** The machine on concrete inputs *)

(** A sample [EVENTS] table: the disable classes the taxonomy gives to
    [controlsMismatch], [relayMalfunction], [plannerError] (immediate) and
    to [commIssue], [radarFault], [cameraMalfunction] (soft); the engage
    and cancel buttons enable and user-disable. *)
Definition sample_EVENTS (e : EventName.t) : list ET.t :=
  match e with
  | EventName.buttonEnable => [ET.ENABLE]
  | EventName.buttonCancel => [ET.USER_DISABLE]
  | EventName.controlsMismatch | EventName.relayMalfunction
  | EventName.plannerError => [ET.IMMEDIATE_DISABLE; ET.NO_ENTRY]
  | EventName.commIssue | EventName.radarFault
  | EventName.cameraMalfunction => [ET.SOFT_DISABLE; ET.NO_ENTRY]
  | _ => []
  end.

Definition tick_with (evs : list EventName.t) : Tick :=
  mkTick sample_CS evs true 1.

Definition keep_cruise (v : Q) (_ : list ButtonEvent.t) (_ : ButtonTimers)
    (_ _ : bool) : Q := v.

Definition keep_regen (_ v : Q) (_ _ : bool) : Q := v.

Definition start_cruise (v : Q) (_ : list ButtonEvent.t) (_ : Q) : Q := v.

Definition sample_step : Controls -> Tick -> Controls :=
  step sample_EVENTS keep_cruise keep_regen start_cruise false.

Definition sample_run : Controls -> list Tick -> Controls :=
  run sample_EVENTS keep_cruise keep_regen start_cruise false.

Definition sample_reachable : Controls -> Prop :=
  reachable sample_EVENTS keep_cruise keep_regen start_cruise false.

(** Engaged: one tick with the enable button from the initial state. *)
Definition engaged : Controls :=
  sample_step (init false true) (tick_with [EventName.buttonEnable]).

(** Soft disabling: a further tick with [commIssue]. *)
Definition degraded : Controls :=
  sample_step engaged (tick_with [EventName.commIssue]).

Lemma engaged_reachable : sample_reachable engaged.
Proof. apply reach_step, reach_init. Qed.

Lemma degraded_reachable : sample_reachable degraded.
Proof. apply reach_step, engaged_reachable. Qed.

Lemma enabled_active_invariant_witness :
  (enabled engaged = true <->
   state engaged = State.preEnabled \/ state engaged = State.enabled
   \/ state engaged = State.softDisabling)
  /\ (active engaged = true <->
      state engaged = State.enabled \/ state engaged = State.softDisabling).
Proof.
  apply (enabled_active_invariant sample_EVENTS keep_cruise keep_regen
           start_cruise false engaged).
  apply reach_step, reach_init.
Defined.

(** C3, as stated, fails: with [commIssue] on every tick the state is
    [softDisabling] after the 299th tick that follows the entry tick and
    already [disabled] after the 300th, one tick before the 301st. *)
Lemma soft_disable_timeout_301_counterexample :
  let entry := tick_with [EventName.commIssue] in
  state engaged = State.enabled
  /\ soft_only sample_EVENTS entry = true
  /\ state (sample_step engaged entry) = State.softDisabling
  /\ state (sample_run (sample_step engaged entry) (repeat entry 299))
     = State.softDisabling
  /\ state (sample_run (sample_step engaged entry) (repeat entry 300))
     = State.disabled.
Proof. vm_compute. repeat split. Qed.

Lemma soft_disable_timeout_witness :
  let entry := tick_with [EventName.commIssue] in
  state (sample_step engaged entry) = State.softDisabling
  /\ ((length (repeat entry 300) < 300)%nat ->
      state (sample_run (sample_step engaged entry) (repeat entry 300))
      = State.softDisabling)
  /\ (length (repeat entry 300) = 300%nat ->
      state (sample_run (sample_step engaged entry) (repeat entry 300))
      = State.disabled).
Proof.
  apply (soft_disable_timeout sample_EVENTS keep_cruise keep_regen
           start_cruise false engaged (tick_with [EventName.commIssue])
           (repeat (tick_with [EventName.commIssue]) 300)).
  - apply reach_step, reach_init.
  - reflexivity.
  - reflexivity.
  - vm_compute. reflexivity.
Defined.

(** C8, as stated, fails: in [softDisabling], a tick whose only event is
    the cancel button (a user disable, no soft disable) ends in
    [disabled], not [enabled]. *)
Lemma soft_disable_recovery_counterexample :
  let t := tick_with [EventName.buttonCancel] in
  sample_reachable degraded
  /\ state degraded = State.softDisabling
  /\ any_event sample_EVENTS (collected t) ET.SOFT_DISABLE = false
  /\ state (sample_step degraded t) = State.disabled
  /\ state (sample_step degraded t) <> State.enabled.
Proof.
  split; [apply degraded_reachable |].
  vm_compute. repeat split. discriminate.
Qed.

Lemma soft_disable_recovery_witness :
  state (sample_step degraded (tick_with [])) = State.enabled.
Proof.
  apply (soft_disable_recovery sample_EVENTS keep_cruise keep_regen
           start_cruise false degraded (tick_with [])).
  - apply reach_step, reach_step, reach_init.
  - reflexivity.
  - reflexivity.
  - reflexivity.
  - reflexivity.
Defined.

End Engagement.

(** ** The event collector *)

Module ThermalStatus.
Inductive t : Set := green | yellow | red | danger.

(** The enumerant's ordinal, which [>=] compares. *)
Definition raw (x : t) : Z :=
  match x with green => 0 | yellow => 1 | red => 2 | danger => 3 end.
End ThermalStatus.

Module PandaType.
Inductive t : Set :=
| unknown | whitePanda | greyPanda | blackPanda | pedal | uno | dos.

Definition eqb (a b : t) : bool :=
  match a, b with
  | unknown, unknown | whitePanda, whitePanda | greyPanda, greyPanda
  | blackPanda, blackPanda | pedal, pedal | uno, uno | dos, dos => true
  | _, _ => false
  end.
End PandaType.

(** [Calibration] of selfdrive/locationd/calibrationd.py: the values of
    [liveCalibration.calStatus]. *)
Module Calibration.
Inductive t : Set := UNCALIBRATED | CALIBRATED | INVALID.

Definition eqb (a b : t) : bool :=
  match a, b with
  | UNCALIBRATED, UNCALIBRATED | CALIBRATED, CALIBRATED
  | INVALID, INVALID => true
  | _, _ => false
  end.
End Calibration.

Module LaneChangeState.
Inductive t : Set :=
| off | preLaneChange | laneChangeStarting | laneChangeFinishing.
End LaneChangeState.

Module LaneChangeDirection.
Inductive t : Set := none | left | right.
End LaneChangeDirection.

(** One entry of [sm['pandaStates']]. *)
Record PandaState : Set := mkPanda {
  ps_safetyModel : SafetyModel.t;
  ps_safetyParam : Z;
  controlsAllowed : bool;
  fault_relayMalfunction : bool
}.

(** One entry of [CP.safetyConfigs]. *)
Record SafetyConfig : Set := mkSafetyConfig {
  safetyModel : SafetyModel.t;
  safetyParam : Z
}.

(** The fields of [CarParams] the supervisor reads in these methods. *)
Record CarParams : Set := mkCarParams {
  safetyConfigs : list SafetyConfig;
  pcmCruise : bool;
  openpilotLongitudinalControl : bool
}.

Module Events.

(** The subscribed telemetry [update_events] and [data_sample] read, one
    snapshot per tick. *)
Record SubMaster : Type := mkSM {
  frame : Z;
  dm_events : list EventName.t;
  pandaType : PandaType.t;
  batteryPercent : Z;
  chargingError : bool;
  thermalStatus : ThermalStatus.t;
  freeSpacePercent : Q;
  memoryUsagePercent : Z;
  fanSpeedPercentDesired : Z;
  fanSpeedRpm : Z;
  calStatus : Calibration.t;
  laneChangeState : LaneChangeState.t;
  laneChangeDirection : LaneChangeDirection.t;
  pandaStates : list PandaState;
  radarErrors : list nat;
  valid_pandaStates : bool;
  all_alive_and_valid : bool;
  liveParameters_valid : bool;
  mpcSolutionValid : bool;
  sensorsOK : bool;
  posenetOK : bool;
  deviceStable : bool;
  excessiveResets : bool;
  hardBrakePredicted : bool;
  frameDropPerc : Q;
  longitudinalPlan_fcw : bool;
  camera_csids : list nat;
  cameras_alive : bool;
  rcv_frame_managerState : Z;
  not_running : bool
}.

(** The attributes of [self] these two methods read or write.  [events]
    is the event set; [static_events] are the events [__init__] adds with
    [static=True], which [clear()] keeps. *)
Record Controls : Type := mkControls {
  CP : CarParams;
  static_events : list EventName.t;
  events : list EventName.t;
  startup_event : option EventName.t;
  initialized : bool;
  enabled : bool;
  can_rcv_error : bool;
  can_error_counter : Z;
  mismatch_counter : Z;
  cruise_mismatch_counter : Z;
  last_functional_fan_frame : Z;
  logged_comm_issue : bool;
  slowing_down_alert : bool;
  slowing_down_sound_alert : bool;
  distance_traveled : Q
}.

Definition set_events (s : Controls) (v : list EventName.t) : Controls :=
  mkControls (CP s) (static_events s) v (startup_event s) (initialized s)
    (enabled s) (can_rcv_error s) (can_error_counter s) (mismatch_counter s)
    (cruise_mismatch_counter s) (last_functional_fan_frame s)
    (logged_comm_issue s) (slowing_down_alert s) (slowing_down_sound_alert s)
    (distance_traveled s).

Definition set_startup_event (s : Controls) (v : option EventName.t)
    : Controls :=
  mkControls (CP s) (static_events s) (events s) v (initialized s)
    (enabled s) (can_rcv_error s) (can_error_counter s) (mismatch_counter s)
    (cruise_mismatch_counter s) (last_functional_fan_frame s)
    (logged_comm_issue s) (slowing_down_alert s) (slowing_down_sound_alert s)
    (distance_traveled s).

Definition set_can_rcv_error (s : Controls) (v : bool) : Controls :=
  mkControls (CP s) (static_events s) (events s) (startup_event s)
    (initialized s) (enabled s) v (can_error_counter s) (mismatch_counter s)
    (cruise_mismatch_counter s) (last_functional_fan_frame s)
    (logged_comm_issue s) (slowing_down_alert s) (slowing_down_sound_alert s)
    (distance_traveled s).

Definition set_can_error_counter (s : Controls) (v : Z) : Controls :=
  mkControls (CP s) (static_events s) (events s) (startup_event s)
    (initialized s) (enabled s) (can_rcv_error s) v (mismatch_counter s)
    (cruise_mismatch_counter s) (last_functional_fan_frame s)
    (logged_comm_issue s) (slowing_down_alert s) (slowing_down_sound_alert s)
    (distance_traveled s).

Definition set_mismatch_counter (s : Controls) (v : Z) : Controls :=
  mkControls (CP s) (static_events s) (events s) (startup_event s)
    (initialized s) (enabled s) (can_rcv_error s) (can_error_counter s) v
    (cruise_mismatch_counter s) (last_functional_fan_frame s)
    (logged_comm_issue s) (slowing_down_alert s) (slowing_down_sound_alert s)
    (distance_traveled s).

Definition set_cruise_mismatch_counter (s : Controls) (v : Z) : Controls :=
  mkControls (CP s) (static_events s) (events s) (startup_event s)
    (initialized s) (enabled s) (can_rcv_error s) (can_error_counter s)
    (mismatch_counter s) v (last_functional_fan_frame s)
    (logged_comm_issue s) (slowing_down_alert s) (slowing_down_sound_alert s)
    (distance_traveled s).

Definition set_last_functional_fan_frame (s : Controls) (v : Z) : Controls :=
  mkControls (CP s) (static_events s) (events s) (startup_event s)
    (initialized s) (enabled s) (can_rcv_error s) (can_error_counter s)
    (mismatch_counter s) (cruise_mismatch_counter s) v
    (logged_comm_issue s) (slowing_down_alert s) (slowing_down_sound_alert s)
    (distance_traveled s).

Definition set_logged_comm_issue (s : Controls) (v : bool) : Controls :=
  mkControls (CP s) (static_events s) (events s) (startup_event s)
    (initialized s) (enabled s) (can_rcv_error s) (can_error_counter s)
    (mismatch_counter s) (cruise_mismatch_counter s)
    (last_functional_fan_frame s) v (slowing_down_alert s)
    (slowing_down_sound_alert s) (distance_traveled s).

Definition set_slowing_down_sound_alert (s : Controls) (v : bool)
    : Controls :=
  mkControls (CP s) (static_events s) (events s) (startup_event s)
    (initialized s) (enabled s) (can_rcv_error s) (can_error_counter s)
    (mismatch_counter s) (cruise_mismatch_counter s)
    (last_functional_fan_frame s) (logged_comm_issue s)
    (slowing_down_alert s) v (distance_traveled s).

Definition set_distance_traveled (s : Controls) (v : Q) : Controls :=
  mkControls (CP s) (static_events s) (events s) (startup_event s)
    (initialized s) (enabled s) (can_rcv_error s) (can_error_counter s)
    (mismatch_counter s) (cruise_mismatch_counter s)
    (last_functional_fan_frame s) (logged_comm_issue s)
    (slowing_down_alert s) (slowing_down_sound_alert s) v.

(** Modelled from the spec: [add(kind)], [add_from_msg(list)] and
    [clear()] of the event set (events.py is not in the sources).
    [self.events.add(e)]: *)
Definition add (s : Controls) (e : EventName.t) : Controls :=
  set_events s (events s ++ [e]).

(** [self.events.add_from_msg(es)] *)
Definition add_from_msg (s : Controls) (es : list EventName.t) : Controls :=
  set_events s (events s ++ es).

(** [self.events.clear()]: the set is rebuilt, starting from the events
    [__init__] added with [static=True] (lines 223-234). *)
Definition clear (s : Controls) : Controls :=
  set_events s (static_events s).

Section collector.

(** [EON], [TICI] of selfdrive.hardware and the environment flags. *)
Variables EON TICI SIMULATION NOSENSOR REPLAY : bool.

(** [data_sample], lines 585-604: the CAN timeout flag, the mismatch
    counter and the odometer.  [can_received] tells whether [can_strs] is
    non-empty.  (The initialisation gate of lines 578-583 is
    [Engagement.data_sample].) *)
Definition data_sample (self : Controls) (can_received : bool)
    (CS : CarState) (sm : SubMaster) : Controls :=
  let self :=
    if negb can_received then
      set_can_rcv_error
        (set_can_error_counter self (can_error_counter self + 1)) true
    else set_can_rcv_error self false in
  let self :=
    if negb (enabled self) then set_mismatch_counter self 0 else self in
  let self :=
    if existsb (fun ps => negb (controlsAllowed ps) && enabled self)
         (filter
            (fun ps => negb (safety_in (ps_safetyModel ps) IGNORED_SAFETY_MODES))
            (pandaStates sm))
    then set_mismatch_counter self (mismatch_counter self + 1)
    else self in
  set_distance_traveled self (distance_traveled self + vEgo CS * DT_CTRL).

(** Lines 405-417: battery, temperature, disk space and memory. *)
Definition hardware_events (self : Controls) (sm : SubMaster) : Controls :=
  let self :=
    if EON && negb (PandaType.eqb (pandaType sm) PandaType.uno)
       && (batteryPercent sm <? 1) && chargingError sm
    then add self EventName.lowBattery else self in
  let self :=
    if ThermalStatus.raw (thermalStatus sm)
       >=? ThermalStatus.raw ThermalStatus.red
    then add self EventName.overheat else self in
  let self :=
    if Qlt_bool (freeSpacePercent sm) 7 && negb SIMULATION
    then add self EventName.outOfSpace else self in
  if (memoryUsagePercent sm >? (if TICI then 90 else 65)) && negb SIMULATION
  then add self EventName.lowMemory else self.

(** Lines 424-430: the fan is not spinning for 5 seconds. *)
Definition fan_events (self : Controls) (sm : SubMaster) : Controls :=
  if PandaType.eqb (pandaType sm) PandaType.uno
     || PandaType.eqb (pandaType sm) PandaType.dos
  then
    if (fanSpeedRpm sm =? 0) && (fanSpeedPercentDesired sm >? 50) then
      if Qlt_bool 5
           (inject_Z (frame sm - last_functional_fan_frame self) * DT_CTRL)
      then add self EventName.fanMalfunction else self
    else set_last_functional_fan_frame self (frame sm)
  else self.

(** Lines 432-438: calibration status. *)
Definition calibration_events (self : Controls) (sm : SubMaster) : Controls :=
  let cal_status := calStatus sm in
  if negb (Calibration.eqb cal_status Calibration.CALIBRATED) then
    if Calibration.eqb cal_status Calibration.UNCALIBRATED
    then add self EventName.calibrationIncomplete
    else add self EventName.calibrationInvalid
  else self.

(** Lines 440-453: lane change. *)
Definition lane_change_events (self : Controls) (CS : CarState)
    (sm : SubMaster) : Controls :=
  match laneChangeState sm with
  | LaneChangeState.preLaneChange =>
      let direction := laneChangeDirection sm in
      let is_left :=
        match direction with LaneChangeDirection.left => true | _ => false end in
      let is_right :=
        match direction with LaneChangeDirection.right => true | _ => false end in
      if (leftBlindspot CS && is_left) || (rightBlindspot CS && is_right)
      then add self EventName.laneChangeBlocked
      else if is_left then add self EventName.preLaneChangeLeft
      else add self EventName.preLaneChangeRight
  | LaneChangeState.laneChangeStarting
  | LaneChangeState.laneChangeFinishing => add self EventName.laneChange
  | LaneChangeState.off => self
  end.

(** Lines 455-456. *)
Definition can_events (self : Controls) (CS : CarState) : Controls :=
  if can_rcv_error self || negb (canValid CS)
  then add self EventName.canError else self.

(** Lines 460-463: does panda [i] disagree with the configuration?  A
    panda inside the list must match its entry; one outside must be
    silent or noOutput. *)
Definition safety_mismatch (cp : CarParams) (i : nat) (p : PandaState)
    : bool :=
  match nth_error (safetyConfigs cp) i with
  | Some c =>
      negb (SafetyModel.eqb (ps_safetyModel p) (safetyModel c))
      || negb (ps_safetyParam p =? safetyParam c)
  | None => negb (safety_in (ps_safetyModel p) IGNORED_SAFETY_MODES)
  end.

(** Lines 458-468: [for i, pandaState in enumerate(self.sm['pandaStates'])]. *)
Fixpoint panda_events (self : Controls) (i : nat) (ps : list PandaState)
    : Controls :=
  match ps with
  | [] => self
  | pandaState :: rest =>
      let self :=
        if safety_mismatch (CP self) i pandaState
           || (mismatch_counter self >=? 200)
        then add self EventName.controlsMismatch else self in
      let self :=
        if fault_relayMalfunction pandaState
        then add self EventName.relayMalfunction else self in
      panda_events self (S i) rest
  end.

(** Lines 470-483: hardware or system issues. *)
Definition system_events (self : Controls) (sm : SubMaster) : Controls :=
  if negb (length (radarErrors sm) =? 0)%nat then
    add self EventName.radarFault
  else if negb (valid_pandaStates sm) then
    add self EventName.usbError
  else if negb (all_alive_and_valid sm) then
    let self := add self EventName.commIssue in
    if negb (logged_comm_issue self)
    then set_logged_comm_issue self true else self
  else set_logged_comm_issue self false.

(** Lines 496-498: a second pass over the panda faults. *)
Fixpoint relay_events (self : Controls) (ps : list PandaState) : Controls :=
  match ps with
  | [] => self
  | pandaState :: rest =>
      relay_events
        (if fault_relayMalfunction pandaState
         then add self EventName.relayMalfunction else self)
        rest
  end.

(** Lines 485-498: planner, localizer and relay. *)
Definition plan_events (self : Controls) (sm : SubMaster) : Controls :=
  let self :=
    if negb (liveParameters_valid sm)
    then add self EventName.vehicleModelInvalid else self in
  let self :=
    if negb (mpcSolutionValid sm)
    then add self EventName.plannerError else self in
  let self :=
    if negb (sensorsOK sm) && negb NOSENSOR then
      if Qlt_bool (5 / DT_CTRL) (inject_Z (frame sm))
      then add self EventName.sensorDataInvalid else self
    else self in
  let self :=
    if negb (posenetOK sm) then add self EventName.posenetInvalid else self in
  let self :=
    if negb (deviceStable sm) then add self EventName.deviceFalling else self in
  relay_events self (pandaStates sm).

(** Lines 500-505: mismatch between openpilot and the car's PCM. *)
Definition cruise_mismatch_events (self : Controls) (CS : CarState)
    : Controls :=
  if negb REPLAY then
    let cruise_mismatch :=
      cruiseState_enabled CS
      && (negb (enabled self) || negb (pcmCruise (CP self))) in
    let self :=
      set_cruise_mismatch_counter self
        (if cruise_mismatch then cruise_mismatch_counter self + 1 else 0) in
    if cruise_mismatch_counter self >? py_int (3 / DT_CTRL)
    then add self EventName.cruiseMismatch else self
  else self.

(** Lines 507-512: forward collision warning. *)
Definition fcw_events (self : Controls) (CS : CarState) (sm : SubMaster)
    : Controls :=
  let stock_long_is_braking :=
    enabled self && negb (openpilotLongitudinalControl (CP self))
    && Qlt_bool (aEgo CS) (- (15 # 10)) in
  let model_fcw :=
    hardBrakePredicted sm && negb (brakePressed CS)
    && negb stock_long_is_braking in
  let planner_fcw := longitudinalPlan_fcw sm && enabled self in
  if planner_fcw || model_fcw then add self EventName.fcw else self.

(** Lines 514-519: the speed-limit advisory. *)
Definition slowing_events (self : Controls) : Controls :=
  if slowing_down_sound_alert self then
    add (set_slowing_down_sound_alert self false)
      EventName.slowingDownSpeedSound
  else if slowing_down_alert self then
    add self EventName.slowingDownSpeed
  else self.

(** Lines 535-539: the event of a camera error message, by its CSID. *)
Definition camera_event (csid : nat) : option EventName.t :=
  match csid with
  | 0%nat => Some EventName.roadCameraError
  | 1%nat => Some EventName.wideRoadCameraError
  | 2%nat => Some EventName.driverCameraError
  | _ => None
  end.

(** Lines 521-539; [camera_csids] lists the CSID of each error message of
    the android log, in the order the loops meet them. *)
Fixpoint camera_log_events (self : Controls) (csids : list nat) : Controls :=
  match csids with
  | [] => self
  | csid :: rest =>
      camera_log_events
        (match camera_event csid with
         | Some evt => add self evt
         | None => self
         end)
        rest
  end.

(** Lines 541-557: cameras, model lag, localizer, manager. *)
Definition simulation_events (self : Controls) (sm : SubMaster) : Controls :=
  if negb SIMULATION then
    let self :=
      if negb (cameras_alive sm)
      then add self EventName.cameraMalfunction else self in
    let self :=
      if Qlt_bool 20 (frameDropPerc sm)
      then add self EventName.modeldLagging else self in
    let self :=
      if excessiveResets sm
      then add self EventName.localizerMalfunction else self in
    if negb (rcv_frame_managerState sm =? 0) && not_running sm
    then add self EventName.processNotRunning else self
  else self.

(** Lines 391-398: the event set is rebuilt from the messages and the
    one-shot startup event. *)
Definition message_events (self : Controls) (CS : CarState) (sm : SubMaster)
    : Controls :=
  let self := clear self in
  let self := add_from_msg self (CS_events CS) in
  let self := add_from_msg self (dm_events sm) in
  match startup_event self with
  | Some e => set_startup_event (add self e) None
  | None => self
  end.

(** [update_events(self, CS)], lines 388-567. *)
Definition update_events (self : Controls) (CS : CarState) (sm : SubMaster)
    : Controls :=
  let self := message_events self CS sm in
  if negb (initialized self) then
    add self EventName.controlsInitializing
  else
    let self := hardware_events self sm in
    let self := fan_events self sm in
    let self := calibration_events self sm in
    let self := lane_change_events self CS sm in
    let self := can_events self CS in
    let self := panda_events self 0 (pandaStates sm) in
    let self := system_events self sm in
    let self := plan_events self sm in
    let self := cruise_mismatch_events self CS in
    let self := fcw_events self CS sm in
    let self := slowing_events self in
    let self :=
      if TICI then camera_log_events self (camera_csids sm) else self in
    simulation_events self sm.

(** *** Which blocks can raise [controlsMismatch] *)

(** [quiet s s']: going from [s] to [s'] neither raises nor drops
    [controlsMismatch] and keeps what the panda check reads. *)
Definition quiet (s s' : Controls) : Prop :=
  CP s' = CP s
  /\ mismatch_counter s' = mismatch_counter s
  /\ (In EventName.controlsMismatch (events s')
      <-> In EventName.controlsMismatch (events s)).

Lemma quiet_refl s : quiet s s.
Proof. unfold quiet. tauto. Qed.

Lemma quiet_trans s1 s2 s3 : quiet s1 s2 -> quiet s2 s3 -> quiet s1 s3.
Proof.
  unfold quiet. intros (A1 & A2 & A3) (B1 & B2 & B3).
  rewrite B1, B2, B3. auto.
Qed.

Lemma quiet_add s e : e <> EventName.controlsMismatch -> quiet s (add s e).
Proof.
  intro Hne. unfold quiet, add; cbn. repeat split; auto.
  - rewrite in_app_iff. cbn. intros [H | [H | []]]; [assumption | congruence].
  - intro H. apply in_or_app. now left.
Qed.

Ltac quiet_block :=
  cbv zeta;
  repeat match goal with
  | |- context [if ?b then _ else _] => destruct b
  end;
  unfold quiet, add; cbn; rewrite ?in_app_iff; cbn;
  (split; [reflexivity | split; [reflexivity |]]);
  intuition discriminate.

Lemma hardware_events_quiet s sm : quiet s (hardware_events s sm).
Proof. unfold hardware_events. quiet_block. Qed.

Lemma fan_events_quiet s sm : quiet s (fan_events s sm).
Proof. unfold fan_events. quiet_block. Qed.

Lemma calibration_events_quiet s sm : quiet s (calibration_events s sm).
Proof. unfold calibration_events. quiet_block. Qed.

Lemma lane_change_events_quiet s cs sm : quiet s (lane_change_events s cs sm).
Proof.
  unfold lane_change_events.
  destruct (laneChangeState sm), (laneChangeDirection sm); quiet_block.
Qed.

Lemma can_events_quiet s cs : quiet s (can_events s cs).
Proof. unfold can_events. quiet_block. Qed.

Lemma system_events_quiet s sm : quiet s (system_events s sm).
Proof. unfold system_events. quiet_block. Qed.

Lemma relay_events_quiet ps : forall s, quiet s (relay_events s ps).
Proof.
  induction ps as [| p ps IH]; intro s; cbn; [apply quiet_refl |].
  eapply quiet_trans; [| apply IH]. quiet_block.
Qed.

Lemma plan_events_quiet s sm : quiet s (plan_events s sm).
Proof.
  unfold plan_events. cbv zeta.
  eapply quiet_trans; [| apply relay_events_quiet]. quiet_block.
Qed.

Lemma cruise_mismatch_events_quiet s cs : quiet s (cruise_mismatch_events s cs).
Proof. unfold cruise_mismatch_events. quiet_block. Qed.

Lemma fcw_events_quiet s cs sm : quiet s (fcw_events s cs sm).
Proof. unfold fcw_events. quiet_block. Qed.

Lemma slowing_events_quiet s : quiet s (slowing_events s).
Proof. unfold slowing_events. quiet_block. Qed.

Lemma camera_log_events_quiet cs : forall s, quiet s (camera_log_events s cs).
Proof.
  induction cs as [| c cs IH]; intro s; cbn; [apply quiet_refl |].
  eapply quiet_trans; [| apply IH].
  destruct c as [| [| [| c]]]; cbn [camera_event]; quiet_block.
Qed.

Lemma simulation_events_quiet s sm : quiet s (simulation_events s sm).
Proof. unfold simulation_events. quiet_block. Qed.

(** The panda loop raises [controlsMismatch] exactly when some panda it
    visits disagrees with the configuration or, a panda being there, the
    mismatch counter has reached 200. *)
Lemma panda_events_spec ps : forall s i,
  CP (panda_events s i ps) = CP s
  /\ mismatch_counter (panda_events s i ps) = mismatch_counter s
  /\ (In EventName.controlsMismatch (events (panda_events s i ps))
      <-> In EventName.controlsMismatch (events s)
          \/ exists k p,
               nth_error ps k = Some p
               /\ (safety_mismatch (CP s) (i + k) p = true
                   \/ 200 <= mismatch_counter s)).
Proof.
  induction ps as [| p ps IH]; intros s i.
  - cbn. repeat split; auto.
    intros [H | (k & p & H & _)]; [assumption |].
    destruct k; discriminate.
  - cbn [panda_events]. cbv zeta.
    set (s1 := if safety_mismatch (CP s) i p || (mismatch_counter s >=? 200)
               then add s EventName.controlsMismatch else s).
    set (s2 := if fault_relayMalfunction p
               then add s1 EventName.relayMalfunction else s1).
    assert (Q2 : quiet s1 s2) by (unfold s2; quiet_block).
    destruct Q2 as (C2 & M2 & E2).
    assert (C1 : CP s1 = CP s) by (unfold s1; destruct (_ || _); reflexivity).
    assert (M1 : mismatch_counter s1 = mismatch_counter s)
      by (unfold s1; destruct (_ || _); reflexivity).
    destruct (IH s2 (S i)) as (I1 & I2 & I3).
    rewrite I1, I2, I3, C2, M2, E2, C1, M1.
    split; [reflexivity | split; [reflexivity |]].
    assert (E1 : In EventName.controlsMismatch (events s1)
                 <-> In EventName.controlsMismatch (events s)
                     \/ safety_mismatch (CP s) i p = true
                     \/ 200 <= mismatch_counter s).
    { unfold s1.
      destruct (safety_mismatch (CP s) i p) eqn:Hm; cbn [orb].
      - unfold add; cbn. rewrite in_app_iff. cbn. tauto.
      - destruct (mismatch_counter s >=? 200) eqn:Hc.
        + rewrite Z.geb_le in Hc. unfold add; cbn.
          rewrite in_app_iff. cbn. tauto.
        + assert (~ 200 <= mismatch_counter s).
          { intro H. apply Z.geb_le in H. congruence. }
          intuition discriminate. }
    rewrite E1. split.
    + intros [[H | [H | H]] | (k & q & Hk & H)].
      * now left.
      * right. exists 0%nat, p. rewrite Nat.add_0_r. cbn. auto.
      * right. exists 0%nat, p. cbn. auto.
      * right. exists (S k), q. cbn [nth_error].
        rewrite Nat.add_succ_r. auto.
    + intros [H | (k & q & Hk & H)]; [now left; left |].
      destruct k as [| k].
      * cbn in Hk. inversion Hk; subst q. rewrite Nat.add_0_r in H.
        left. right. exact H.
      * right. exists k, q. cbn [nth_error] in Hk.
        rewrite Nat.add_succ_r in H. auto.
Qed.

(** The event set before the checks: the static events, the events of the
    car and of driver monitoring, and the startup event. *)
Lemma message_events_spec self CS sm :
  CP (message_events self CS sm) = CP self
  /\ mismatch_counter (message_events self CS sm) = mismatch_counter self
  /\ initialized (message_events self CS sm) = initialized self
  /\ (In EventName.controlsMismatch (events (message_events self CS sm)) <->
      In EventName.controlsMismatch (static_events self)
      \/ In EventName.controlsMismatch (CS_events CS)
      \/ In EventName.controlsMismatch (dm_events sm)
      \/ startup_event self = Some EventName.controlsMismatch).
Proof.
  unfold message_events, clear, add_from_msg, add; cbn.
  destruct (startup_event self) as [e |]; cbn;
    (split; [reflexivity | split; [reflexivity | split; [reflexivity |]]]);
    rewrite ?in_app_iff; cbn.
  - split.
    + intros [[[H | H] | H] | [H | []]]; auto. subst e. auto.
    + intros [H | [H | [H | H]]]; auto. inversion H. auto.
  - split.
    + intros [[H | H] | H]; auto.
    + intros [H | [H | [H | H]]]; auto. discriminate.
Qed.

(** C9, as amended.  With no [controlsMismatch] carried in by the static
    events, the car's events, the driver-monitoring events or the startup
    event, [update_events] leaves [controlsMismatch] in the event set
    exactly when the supervisor is initialized and some panda state is
    present that either deviates from the [safetyConfigs] entry at its
    index (beyond the list: is neither silent nor noOutput) or comes with
    a mismatch counter of at least 200. *)
Theorem controlsMismatch_raised (self : Controls) (CS : CarState)
    (sm : SubMaster) :
  ~ In EventName.controlsMismatch (static_events self) ->
  ~ In EventName.controlsMismatch (CS_events CS) ->
  ~ In EventName.controlsMismatch (dm_events sm) ->
  startup_event self <> Some EventName.controlsMismatch ->
  (In EventName.controlsMismatch (events (update_events self CS sm))
   <-> initialized self = true
       /\ exists k p,
            nth_error (pandaStates sm) k = Some p
            /\ (safety_mismatch (CP self) k p = true
                \/ 200 <= mismatch_counter self)).
Proof.
  intros N1 N2 N3 N4.
  destruct (message_events_spec self CS sm) as (C0 & M0 & I0 & E0).
  unfold update_events. cbv zeta.
  set (s0 := message_events self CS sm) in *.
  assert (N0 : ~ In EventName.controlsMismatch (events s0)) by tauto.
  rewrite I0. destruct (initialized self); cbn [negb].
  - set (s1 := fan_events (hardware_events s0 sm) sm).
    set (s2 := can_events
                 (lane_change_events (calibration_events s1 sm) CS sm) CS).
    assert (Q2 : quiet s0 s2).
    { unfold s2, s1.
      eapply quiet_trans; [| apply can_events_quiet].
      eapply quiet_trans; [| apply lane_change_events_quiet].
      eapply quiet_trans; [| apply calibration_events_quiet].
      eapply quiet_trans; [| apply fan_events_quiet].
      apply hardware_events_quiet. }
    destruct Q2 as (C2 & M2 & E2).
    destruct (panda_events_spec (pandaStates sm) s2 0) as (P1 & P2 & P3).
    set (s3 := panda_events s2 0 (pandaStates sm)) in *.
    set (s4 := slowing_events
                 (fcw_events
                    (cruise_mismatch_events
                       (plan_events (system_events s3 sm) sm) CS) CS sm)).
    assert (Q4 : quiet s3 s4).
    { unfold s4.
      eapply quiet_trans; [| apply slowing_events_quiet].
      eapply quiet_trans; [| apply fcw_events_quiet].
      eapply quiet_trans; [| apply cruise_mismatch_events_quiet].
      eapply quiet_trans; [| apply plan_events_quiet].
      apply system_events_quiet. }
    assert (Q5 : quiet s3
                   (simulation_events
                      (if TICI then camera_log_events s4 (camera_csids sm)
                       else s4) sm)).
    { eapply quiet_trans; [| apply simulation_events_quiet].
      eapply quiet_trans; [apply Q4 |].
      destruct TICI; [apply camera_log_events_quiet | apply quiet_refl]. }
    destruct Q5 as (_ & _ & E5).
    rewrite E5, P3, E2, C2, M2, C0, M0.
    split.
    + intros [H | H]; [contradiction | now split].
    + intros [_ H]. now right.
  - split.
    + unfold add; cbn. rewrite in_app_iff. cbn.
      intros [H | [H | []]]; [contradiction | discriminate].
    + intros [H _]. discriminate.
Qed.

End collector.

(** *** The collector on concrete inputs *)

Definition sample_config : SafetyConfig := mkSafetyConfig (SafetyModel.other 1) 0.

Definition sample_CP : CarParams := mkCarParams [sample_config] true true.

(** A healthy snapshot with one panda that matches the configuration but
    does not allow controls. *)
Definition sample_sm : SubMaster :=
  mkSM 1000 [] PandaType.dos 80 false ThermalStatus.green 50 30 0 1000
    Calibration.CALIBRATED LaneChangeState.off LaneChangeDirection.none
    [mkPanda (SafetyModel.other 1) 0 false false]
    [] true true true true true true true false false 0 false [] true 1 false.

(** Initialized and enabled, with the mismatch counter at [n]. *)
Definition sample_self (n : Z) : Controls :=
  mkControls sample_CP [] [] None true true false 0 n 0 0 false false false 0.

(** C9, as stated, fails: after the 200th consecutive sample without
    [controlsAllowed] the counter is 200, which does not exceed 200, no
    panda deviates from the configuration, and [controlsMismatch] is
    raised all the same. *)
Lemma controlsMismatch_at_200_counterexample :
  let self := data_sample (sample_self 199) true sample_CS sample_sm in
  mismatch_counter self = 200
  /\ ~ (200 < mismatch_counter self)
  /\ forallb (fun kp => negb (safety_mismatch (CP self) (fst kp) (snd kp)))
       (combine (seq 0 (length (pandaStates sample_sm))) (pandaStates sample_sm))
     = true
  /\ In EventName.controlsMismatch
       (events (update_events false false false false false
                  self sample_CS sample_sm)).
Proof.
  cbv zeta. split; [reflexivity | split; [| split]].
  - vm_compute. discriminate.
  - reflexivity.
  - vm_compute. auto.
Qed.

Lemma controlsMismatch_raised_witness :
  In EventName.controlsMismatch
    (events (update_events false false false false false
               (sample_self 200) sample_CS sample_sm))
  <-> initialized (sample_self 200) = true
      /\ exists k p,
           nth_error (pandaStates sample_sm) k = Some p
           /\ (safety_mismatch (CP (sample_self 200)) k p = true
               \/ 200 <= mismatch_counter (sample_self 200)).
Proof.
  apply (controlsMismatch_raised false false false false false
           (sample_self 200) sample_CS sample_sm).
  - simpl. intros [].
  - simpl. intros [].
  - simpl. intros [].
  - simpl. discriminate.
Defined.

End Events.

(** ** Cruise-speed arbitration *)

Module Speed.

Local Open Scope Q_scope.

(** [radarState.leadOne] *)
Record Lead : Set := mkLead { status : bool; dRel : Q; vRel : Q }.

(** The telemetry the arbitration reads: the radar lead and the model's
    predicted path [modelV2.position]. *)
Record SubMaster : Set := mkSM {
  leadOne : Lead;
  position_x : list Q;
  position_y : list Q
}.

(** What [road_speed_limiter_get_max_speed] returns. *)
Record RoadLimit : Set := mkRoadLimit {
  apply_limit_speed : Q;
  road_limit_speed : Q;
  left_dist : Q;
  first_started : bool;
  max_speed_log : string
}.

(** The attributes of [self] the arbitration reads or writes. *)
Record Controls : Set := mkControls {
  is_metric : bool;
  v_cruise_kph : Q;
  max_speed_clu : Q;
  curve_speed_ms : Q;
  limited_lead : bool;
  slowing_down : bool;
  slowing_down_alert : bool;
  slowing_down_sound_alert : bool
}.

Definition set_max_speed_clu (s : Controls) (v : Q) : Controls :=
  mkControls (is_metric s) (v_cruise_kph s) v (curve_speed_ms s)
    (limited_lead s) (slowing_down s) (slowing_down_alert s)
    (slowing_down_sound_alert s).

Definition set_curve_speed_ms (s : Controls) (v : Q) : Controls :=
  mkControls (is_metric s) (v_cruise_kph s) (max_speed_clu s) v
    (limited_lead s) (slowing_down s) (slowing_down_alert s)
    (slowing_down_sound_alert s).

Definition set_limited_lead (s : Controls) (v : bool) : Controls :=
  mkControls (is_metric s) (v_cruise_kph s) (max_speed_clu s)
    (curve_speed_ms s) v (slowing_down s) (slowing_down_alert s)
    (slowing_down_sound_alert s).

Definition set_slowing_down (s : Controls) (v : bool) : Controls :=
  mkControls (is_metric s) (v_cruise_kph s) (max_speed_clu s)
    (curve_speed_ms s) (limited_lead s) v (slowing_down_alert s)
    (slowing_down_sound_alert s).

Definition set_slowing_down_alert (s : Controls) (v : bool) : Controls :=
  mkControls (is_metric s) (v_cruise_kph s) (max_speed_clu s)
    (curve_speed_ms s) (limited_lead s) (slowing_down s) v
    (slowing_down_sound_alert s).

Definition set_slowing_down_sound_alert (s : Controls) (v : bool)
    : Controls :=
  mkControls (is_metric s) (v_cruise_kph s) (max_speed_clu s)
    (curve_speed_ms s) (limited_lead s) (slowing_down s)
    (slowing_down_alert s) v.

(** The part of numpy the curve speed uses.  Arrays are opaque; the one
    scalar that comes back, a mean, is [None] when it is not a finite
    number (numpy's nan or inf). *)
Class Numpy : Type := {
  ndarray : Type;
  np_array : list Q -> ndarray;
  np_gradient : ndarray -> ndarray -> ndarray;
  np_add : Q -> ndarray -> ndarray;
  np_div : ndarray -> ndarray -> ndarray;
  np_rdiv : Q -> ndarray -> ndarray;
  np_pow : ndarray -> Q -> ndarray;
  np_slice : ndarray -> Z -> Z -> ndarray;
  np_abs : ndarray -> ndarray;
  np_clip_min : ndarray -> Q -> ndarray;
  np_sqrt : ndarray -> ndarray;
  np_mean : ndarray -> option Q
}.

(** [x * k] for a numpy scalar [x]. *)
Definition np_scale (x : option Q) (k : Q) : option Q :=
  match x with Some q => Some (q * k) | None => None end.

(** [x < v]: false when [x] is not a finite number. *)
Definition np_lt (x : option Q) (v : Q) : bool :=
  match x with Some q => Qlt_bool q v | None => false end.

(** [max(x, m)]: [x] unless [m] is strictly larger. *)
Definition np_max (x : option Q) (m : Q) : option Q :=
  match x with Some q => Some (py_max q m) | None => None end.

Section arbitration.

Context {numpy : Numpy}.

(** [Conversions] of selfdrive/config.py. *)
Variables CV_KPH_TO_MS CV_MS_TO_KPH CV_MS_TO_MPH : Q.

(** [V_CRUISE_MIN] of drive_helpers.py, [SLOW_ON_CURVES] and
    [MIN_CURVE_SPEED] of selfdrive/car/gm/values.py, [TRAJECTORY_SIZE] of
    lane_planner.py. *)
Variable V_CRUISE_MIN : Q.
Variable SLOW_ON_CURVES : bool.
Variable MIN_CURVE_SPEED : Q.
Variable TRAJECTORY_SIZE : nat.

(** [ntune_scc_get("sccCurvatureFactor")], [interp] of
    common/numpy_fast.py and [road_speed_limiter_get_max_speed]. *)
Variable sccCurvatureFactor : Q.
Variable interp : Q -> list Q -> list Q -> Q.
Variable road_speed_limiter_get_max_speed : Q -> bool -> RoadLimit.

(** [self.speed_conv_to_clu], fixed by [__init__] (line 184). *)
Definition speed_conv_to_clu (self : Controls) : Q :=
  if is_metric self then CV_MS_TO_KPH else CV_MS_TO_MPH.

(** [kph_to_clu(self, kph)], lines 70-72. *)
Definition kph_to_clu (self : Controls) (kph : Q) : Z :=
  let speed_conv_to_clu :=
    if is_metric self then CV_MS_TO_KPH else CV_MS_TO_MPH in
  py_int (kph * CV_KPH_TO_MS * speed_conv_to_clu).

(** [self.min_set_speed_clu], fixed by [__init__] (lines 37, 176). *)
Definition min_set_speed_clu (self : Controls) : Z :=
  kph_to_clu self V_CRUISE_MIN.

(** [get_lead(self, sm)], lines 248-252. *)
Definition get_lead (sm : SubMaster) : option Lead :=
  let radar := leadOne sm in
  if status radar then Some radar else None.

(** [get_long_lead_safe_speed(self, vEgo, sm, CS)], lines 254-276. *)
Definition get_long_lead_safe_speed (self : Controls) (vEgo : Q)
    (sm : SubMaster) (CS : CarState) : Q :=
  if adaptiveCruise CS then
    match get_lead sm with
    | Some lead =>
        let d := dRel lead - 5 in
        if Qlt_bool 0 d && Qlt_bool d (- vRel lead * (9 + 3) * 2)
           && Qlt_bool (vRel lead) (-1)
        then
          let t := d / vRel lead in
          let accel := - (vRel lead / t) * speed_conv_to_clu self in
          let accel := accel * (1 # 1000) in
          if Qlt_bool accel 0 then
            let target_speed := vEgo + accel in
            let target_speed :=
              py_max target_speed (inject_Z (min_set_speed_clu self)) in
            target_speed
          else 0
        else 0
    | None => 0
    end
  else 0.

(** The curvature-limited speed both definitions of [cal_curve_speed]
    compute, up to the window [lo:hi] and the factor:
    [np.mean(np.sqrt(a_y_max / np.clip(np.abs(curv), 1e-4, None))) * factor]
    with [curv = d2y / (1 + dy ** 2) ** 1.5]. *)
Definition curvature_speed (sm : SubMaster) (v_ego : Q) (lo hi : Z)
    (factor : Q) : option Q :=
  let x := np_array (position_x sm) in
  let y := np_array (position_y sm) in
  let dy := np_gradient y x in
  let d2y := np_gradient dy x in
  let curv := np_div d2y (np_pow (np_add 1 (np_pow dy 2)) (15 # 10)) in
  let curv := np_slice curv lo hi in
  let a_y_max := (2975 # 1000) - v_ego * (375 # 10000) in
  let v_curvature :=
    np_sqrt (np_rdiv a_y_max (np_clip_min (np_abs curv) (1 # 10000))) in
  np_scale (np_mean v_curvature) factor.

(** The assignment to [self.curve_speed_ms] at the end of both
    definitions: below [v_ego] the speed floored at [floor], otherwise
    255, and 255 for nan. *)
Definition assign_curve_speed (self : Controls) (model_speed : option Q)
    (v_ego floor : Q) : Controls :=
  let curve_speed_ms :=
    if np_lt model_speed v_ego then np_max model_speed floor
    else Some 255 in
  match curve_speed_ms with
  | Some v => set_curve_speed_ms self v
  | None => set_curve_speed_ms self 255
  end.

(** The first [def cal_curve_speed(self, sm, v_ego, frame)], lines
    278-303. *)
Definition cal_curve_speed_278 (self : Controls) (sm : SubMaster)
    (v_ego : Q) (frame : Z) : Controls :=
  if (frame mod 20 =? 0)%Z then
    if (length (position_x sm) =? TRAJECTORY_SIZE)%nat
       && (length (position_y sm) =? TRAJECTORY_SIZE)%nat
    then
      let start :=
        py_int (interp v_ego [10; 27]
                  [10; inject_Z (Z.of_nat TRAJECTORY_SIZE - 10)%Z]) in
      let model_speed :=
        curvature_speed sm v_ego start
          (Z.min (start + 10)%Z (Z.of_nat TRAJECTORY_SIZE))
          ((85 # 100) * sccCurvatureFactor) in
      assign_curve_speed self model_speed v_ego MIN_CURVE_SPEED
    else set_curve_speed_ms self 255
  else self.

(** The second [def cal_curve_speed(self, sm, v_ego, frame)], lines
    608-633; it also returns [self.curve_speed_ms], which the caller
    drops. *)
Definition cal_curve_speed_608 (self : Controls) (sm : SubMaster)
    (v_ego : Q) (frame : Z) : Controls :=
  if (frame mod 10 =? 0)%Z then
    if (length (position_x sm) =? TRAJECTORY_SIZE)%nat
       && (length (position_y sm) =? TRAJECTORY_SIZE)%nat
    then
      let model_speed :=
        curvature_speed sm v_ego 5%Z (Z.of_nat TRAJECTORY_SIZE - 10)%Z
          (70 # 100) in
      assign_curve_speed self model_speed v_ego (32 * CV_KPH_TO_MS)
    else set_curve_speed_ms self 255
  else self.

(** The body of [class Controls] binds its names in order, a later [def]
    replacing an earlier one of the same name. *)
Definition class_body
    : list (string * (Controls -> SubMaster -> Q -> Z -> Controls)) :=
  [ ("cal_curve_speed"%string, cal_curve_speed_278);
    ("cal_curve_speed"%string, cal_curve_speed_608) ].

Definition bound {A : Type} (name : string) (body : list (string * A))
    (default : A) : A :=
  fold_left
    (fun found def => if String.eqb (fst def) name then snd def else found)
    body default.

(** [self.cal_curve_speed]: the attribute the class ends up with. *)
Definition cal_curve_speed : Controls -> SubMaster -> Q -> Z -> Controls :=
  bound "cal_curve_speed" class_body (fun self _ _ _ => self).

(** [update_max_speed(self, max_speed, CS)], lines 379-385. *)
Definition update_max_speed (self : Controls) (max_speed : Q)
    (CS : CarState) : Controls :=
  if negb (adaptiveCruise CS) || Qle_bool (max_speed_clu self) 0 then
    set_max_speed_clu self max_speed
  else
    let kp := 1 # 100 in
    let error := max_speed - max_speed_clu self in
    set_max_speed_clu self (max_speed_clu self + error * kp).

(** Lines 321-324 of [cal_max_speed]: the candidate before any clamp. *)
Definition cruise_candidate (self : Controls) : Q :=
  if SLOW_ON_CURVES && Qle_bool MIN_CURVE_SPEED (curve_speed_ms self) then
    py_min (v_cruise_kph self * CV_KPH_TO_MS) (curve_speed_ms self)
    * speed_conv_to_clu self
  else inject_Z (kph_to_clu self (v_cruise_kph self)).

(** Lines 332-354 of [cal_max_speed]: the road speed limit. *)
Definition road_limit_clamp (self : Controls) (r : RoadLimit)
    (max_speed_clu : Q) : Controls * Q :=
  if Qle_bool (inject_Z (kph_to_clu self 30)) (apply_limit_speed r) then
    let self :=
      if first_started r then set_max_speed_clu self (v_cruise_kph self)
      else self in
    let max_speed_clu := py_min max_speed_clu (apply_limit_speed r) in
    if Qlt_bool (apply_limit_speed r) (v_cruise_kph self) then
      let self :=
        if negb (slowing_down_alert self) && negb (slowing_down self) then
          set_slowing_down (set_slowing_down_sound_alert self true) true
        else self in
      (set_slowing_down_alert self true, max_speed_clu)
    else (set_slowing_down_alert self false, max_speed_clu)
  else
    (set_slowing_down (set_slowing_down_alert self false) false,
     max_speed_clu).

(** Lines 356-365 of [cal_max_speed]: the lead-vehicle clamp. *)
Definition lead_clamp (self : Controls) (vEgo : Q) (sm : SubMaster)
    (CS : CarState) (max_speed_clu : Q) : Controls * Q :=
  let lead_speed := get_long_lead_safe_speed self vEgo sm CS in
  if Qle_bool (inject_Z (min_set_speed_clu self)) lead_speed then
    if Qlt_bool lead_speed max_speed_clu then
      let max_speed_clu := py_min max_speed_clu lead_speed in
      if negb (limited_lead self) then
        (set_limited_lead (set_max_speed_clu self (vEgo + 3)) true,
         max_speed_clu)
      else (self, max_speed_clu)
    else (self, max_speed_clu)
  else (set_limited_lead self false, max_speed_clu).

(** [cal_max_speed(self, frame, vEgo, sm, CS)], lines 307-376. *)
Definition cal_max_speed (self : Controls) (frame : Z) (vEgo : Q)
    (sm : SubMaster) (CS : CarState) : Controls * (Q * Q * string) :=
  let r := road_speed_limiter_get_max_speed vEgo (is_metric self) in
  let self := cal_curve_speed self sm vEgo frame in
  let max_speed_clu := cruise_candidate self in
  let max_speed_log := EmptyString in
  let '(self, max_speed_clu) := road_limit_clamp self r max_speed_clu in
  let '(self, max_speed_clu) := lead_clamp self vEgo sm CS max_speed_clu in
  let self :=
    update_max_speed self (inject_Z (py_int (max_speed_clu + (1 # 2)))) CS in
  (self, (road_limit_speed r, left_dist r, max_speed_log)).

(** *** The claims on the arbitration *)

(** One step of the low-pass. *)
Lemma update_max_speed_step (self : Controls) (target : Q) (CS : CarState) :
  adaptiveCruise CS = true -> 0 < max_speed_clu self ->
  max_speed_clu (update_max_speed self target CS)
  = max_speed_clu self + (target - max_speed_clu self) * (1 # 100).
Proof.
  intros Ha Hx. unfold update_max_speed. rewrite Ha. cbn [negb orb].
  destruct (Qle_bool (max_speed_clu self) 0) eqn:E.
  - apply Qle_bool_iff in E. exfalso. exact (Qlt_not_le _ _ Hx E).
  - reflexivity.
Qed.


(** [n] ticks of smoothing toward one target. *)
Fixpoint smooth (n : nat) (self : Controls) (target : Q) (CS : CarState)
    : Controls :=
  match n with
  | O => self
  | S n => update_max_speed (smooth n self target CS) target CS
  end.

Fixpoint decay (n : nat) : Q :=
  match n with
  | O => 1
  | S n => (99 # 100) * decay n
  end.

(** Toward a target that is not negative the smoothing never leaves the
    low-pass branch: after [n] ticks the distance to the target is
    [0.99 ^ n] times the initial one. *)
Lemma update_max_speed_converges (n : nat) (self : Controls) (target : Q)
    (CS : CarState) :
  adaptiveCruise CS = true -> 0 < max_speed_clu self -> 0 <= target ->
  0 < max_speed_clu (smooth n self target CS)
  /\ target - max_speed_clu (smooth n self target CS)
     == decay n * (target - max_speed_clu self).
Proof.
  intros Ha Hx Ht. induction n as [| n [IH1 IH2]]; cbn [smooth decay].
  - split; [assumption | ring].
  - rewrite (update_max_speed_step _ target CS Ha IH1).
    split; [lra |].
    rewrite <- Qmult_assoc, <- IH2. ring.
Qed.

(** C7.  With [adaptiveCruise], a radar lead with [status], [vRel < -1]
    and [0 < dRel - 5 < -vRel * 24], and with [t = (dRel - 5) / vRel] and
    [accel = -(vRel / t) * speed_conv_to_clu * 0.001] negative,
    [get_long_lead_safe_speed] returns
    [max(vEgo + accel, min_set_speed_clu)]; in every other case it
    returns 0. *)
Theorem lead_safe_speed (self : Controls) (vEgo : Q) (sm : SubMaster)
    (CS : CarState) :
  let lead := leadOne sm in
  let d := dRel lead - 5 in
  let t := d / vRel lead in
  let accel := - (vRel lead / t) * speed_conv_to_clu self * (1 # 1000) in
  let closing :=
    adaptiveCruise CS = true /\ status lead = true
    /\ vRel lead < -1 /\ 0 < d /\ d < - vRel lead * 24 in
  (closing /\ accel < 0 ->
   get_long_lead_safe_speed self vEgo sm CS
   = py_max (vEgo + accel) (inject_Z (min_set_speed_clu self)))
  /\ (~ (closing /\ accel < 0) ->
      get_long_lead_safe_speed self vEgo sm CS = 0).
Proof.
  cbv zeta. unfold get_long_lead_safe_speed, get_lead. cbv zeta.
  set (v := vRel (leadOne sm)). set (d := dRel (leadOne sm) - 5).
  set (accel := - (v / (d / v)) * speed_conv_to_clu self * (1 # 1000)).
  assert (H24 : Qlt_bool d (- v * (9 + 3) * 2) = true <-> d < - v * 24).
  { rewrite Qlt_bool_iff. split; intro H; lra. }
  split.
  - intros ((Ha & Hs & Hv & Hd & Hw) & Hacc).
    rewrite Ha, Hs. cbv beta iota.
    apply Qlt_bool_iff in Hv, Hd, Hacc. apply H24 in Hw.
    fold v d. rewrite Hd, Hw, Hv. cbn [andb]. fold accel.
    rewrite Hacc. reflexivity.
  - intro Hn. clear H24.
    destruct (adaptiveCruise CS); [| reflexivity].
    destruct (status (leadOne sm)); [| reflexivity].
    cbv beta iota. fold v d.
    destruct (Qlt_bool 0 d) eqn:Hd; [| reflexivity].
    destruct (Qlt_bool d (- v * (9 + 3) * 2)) eqn:Hw; [| reflexivity].
    destruct (Qlt_bool v (-1)) eqn:Hv; [| reflexivity].
    cbn [andb]. fold accel.
    destruct (Qlt_bool accel 0) eqn:Hacc; [| reflexivity].
    exfalso. apply Hn.
    apply Qlt_bool_iff in Hv, Hd, Hw, Hacc.
    repeat split; try assumption. lra.
Qed.

(** *** The lead clamp inside [cal_max_speed] *)

Lemma cal_curve_speed_bound : cal_curve_speed = cal_curve_speed_608.
Proof. reflexivity. Qed.

Lemma assign_curve_speed_frame self m v f :
  is_metric (assign_curve_speed self m v f) = is_metric self
  /\ limited_lead (assign_curve_speed self m v f) = limited_lead self
  /\ max_speed_clu (assign_curve_speed self m v f) = max_speed_clu self.
Proof.
  unfold assign_curve_speed. cbv zeta.
  destruct (np_lt m v); [destruct (np_max m f) |]; cbn; auto.
Qed.

Lemma cal_curve_speed_frame self sm v frame :
  is_metric (cal_curve_speed self sm v frame) = is_metric self
  /\ limited_lead (cal_curve_speed self sm v frame) = limited_lead self
  /\ max_speed_clu (cal_curve_speed self sm v frame) = max_speed_clu self.
Proof.
  rewrite cal_curve_speed_bound. unfold cal_curve_speed_608.
  destruct (frame mod 10 =? 0)%Z; [| auto].
  destruct (_ && _); [apply assign_curve_speed_frame | cbn; auto].
Qed.

Lemma road_limit_clamp_frame self r c :
  is_metric (fst (road_limit_clamp self r c)) = is_metric self
  /\ limited_lead (fst (road_limit_clamp self r c)) = limited_lead self.
Proof.
  unfold road_limit_clamp. cbv zeta.
  repeat match goal with
  | |- context [if ?b then _ else _] => destruct b; cbn
  end; auto.
Qed.

Lemma get_long_lead_safe_speed_ext s1 s2 vEgo sm CS :
  is_metric s1 = is_metric s2 ->
  get_long_lead_safe_speed s1 vEgo sm CS
  = get_long_lead_safe_speed s2 vEgo sm CS.
Proof.
  intro H.
  unfold get_long_lead_safe_speed, min_set_speed_clu, kph_to_clu,
    speed_conv_to_clu.
  rewrite H. reflexivity.
Qed.

(** The state and the candidate on entry to the lead clamp. *)
Definition before_lead (self : Controls) (frame : Z) (vEgo : Q)
    (sm : SubMaster) : Controls * Q :=
  let r := road_speed_limiter_get_max_speed vEgo (is_metric self) in
  let self := cal_curve_speed self sm vEgo frame in
  road_limit_clamp self r (cruise_candidate self).

Lemma before_lead_frame self frame vEgo sm :
  is_metric (fst (before_lead self frame vEgo sm)) = is_metric self
  /\ limited_lead (fst (before_lead self frame vEgo sm)) = limited_lead self.
Proof.
  unfold before_lead. cbv zeta.
  destruct (road_limit_clamp_frame (cal_curve_speed self sm vEgo frame)
              (road_speed_limiter_get_max_speed vEgo (is_metric self))
              (cruise_candidate (cal_curve_speed self sm vEgo frame)))
    as [-> ->].
  destruct (cal_curve_speed_frame self sm vEgo frame) as (-> & -> & _).
  auto.
Qed.

Lemma cal_max_speed_unfold self frame vEgo sm CS :
  fst (cal_max_speed self frame vEgo sm CS)
  = let s1 := fst (before_lead self frame vEgo sm) in
    let c1 := snd (before_lead self frame vEgo sm) in
    let s2 := fst (lead_clamp s1 vEgo sm CS c1) in
    let c2 := snd (lead_clamp s1 vEgo sm CS c1) in
    update_max_speed s2 (inject_Z (py_int (c2 + (1 # 2)))) CS.
Proof.
  unfold cal_max_speed, before_lead. cbv zeta.
  destruct (road_limit_clamp _ _ _) as [s1 c1]. cbn [fst snd].
  destruct (lead_clamp s1 vEgo sm CS c1) as [s2 c2]. reflexivity.
Qed.

Lemma update_max_speed_limited_lead self m CS :
  limited_lead (update_max_speed self m CS) = limited_lead self.
Proof. unfold update_max_speed. destruct (_ || _); reflexivity. Qed.

(** What the lead clamp does to the flag, the smoothed set-speed and the
    candidate. *)
Lemma lead_clamp_spec self vEgo sm CS c :
  let lead_speed := get_long_lead_safe_speed self vEgo sm CS in
  let m := inject_Z (min_set_speed_clu self) in
  (lead_speed < m ->
   lead_clamp self vEgo sm CS c = (set_limited_lead self false, c))
  /\ (m <= lead_speed -> c <= lead_speed ->
      lead_clamp self vEgo sm CS c = (self, c))
  /\ (m <= lead_speed -> lead_speed < c -> limited_lead self = true ->
      lead_clamp self vEgo sm CS c = (self, py_min c lead_speed))
  /\ (m <= lead_speed -> lead_speed < c -> limited_lead self = false ->
      lead_clamp self vEgo sm CS c
      = (set_limited_lead (set_max_speed_clu self (vEgo + 3)) true,
         py_min c lead_speed)).
Proof.
  cbv zeta. unfold lead_clamp. cbv zeta.
  set (l := get_long_lead_safe_speed self vEgo sm CS).
  set (m := inject_Z (min_set_speed_clu self)).
  repeat split.
  - intro H. destruct (Qle_bool m l) eqn:E; [| reflexivity].
    apply Qle_bool_iff in E. exfalso. exact (Qlt_not_le _ _ H E).
  - intros Hm Hc. apply Qle_bool_iff in Hm. rewrite Hm.
    apply Qlt_bool_false_iff in Hc. rewrite Hc. reflexivity.
  - intros Hm Hc Hl. apply Qle_bool_iff in Hm. rewrite Hm.
    apply Qlt_bool_iff in Hc. rewrite Hc, Hl. reflexivity.
  - intros Hm Hc Hl. apply Qle_bool_iff in Hm. rewrite Hm.
    apply Qlt_bool_iff in Hc. rewrite Hc, Hl. reflexivity.
Qed.

(** C10.  In [cal_max_speed], with [lead_speed] the value of
    [get_long_lead_safe_speed] and [c1] the max-speed candidate on entry
    to the lead clamp: [limited_lead] ends false when [lead_speed] is
    below [min_set_speed_clu], and a flag that was set is cleared only
    then; this covers the 0 returned without [adaptiveCruise] or without
    a lead when [min_set_speed_clu] is positive.  With [lead_speed] at
    least [min_set_speed_clu] but not below [c1] the flag keeps its
    value.  On a binding clamp ([lead_speed] at least
    [min_set_speed_clu] and below [c1]) the flag ends true, and
    [max_speed_clu] is re-seeded to [vEgo + 3] before the smoothing
    exactly when the flag was false beforehand; with the flag already
    true the smoothing starts from the previous [max_speed_clu]. *)
Theorem limited_lead_hysteresis (self : Controls) (frame : Z) (vEgo : Q)
    (sm : SubMaster) (CS : CarState) :
  let s1 := fst (before_lead self frame vEgo sm) in
  let c1 := snd (before_lead self frame vEgo sm) in
  let lead_speed := get_long_lead_safe_speed self vEgo sm CS in
  let m := inject_Z (min_set_speed_clu self) in
  let s' := fst (cal_max_speed self frame vEgo sm CS) in
  let target :=
    inject_Z (py_int (snd (lead_clamp s1 vEgo sm CS c1) + (1 # 2))) in
  (lead_speed < m -> limited_lead s' = false)
  /\ (limited_lead self = true -> limited_lead s' = false -> lead_speed < m)
  /\ (0 < m ->
      adaptiveCruise CS = false \/ status (leadOne sm) = false ->
      lead_speed = 0 /\ limited_lead s' = false)
  /\ (m <= lead_speed -> c1 <= lead_speed ->
      limited_lead s' = limited_lead self)
  /\ (m <= lead_speed -> lead_speed < c1 -> limited_lead s' = true)
  /\ (m <= lead_speed -> lead_speed < c1 -> limited_lead self = false ->
      s' = update_max_speed
             (set_limited_lead (set_max_speed_clu s1 (vEgo + 3)) true)
             target CS)
  /\ (m <= lead_speed -> lead_speed < c1 -> limited_lead self = true ->
      s' = update_max_speed s1 target CS).
Proof.
  cbv zeta. rewrite cal_max_speed_unfold. cbv zeta.
  destruct (before_lead_frame self frame vEgo sm) as [Hmet Hll].
  set (s1 := fst (before_lead self frame vEgo sm)) in *.
  set (c1 := snd (before_lead self frame vEgo sm)).
  assert (Hl : get_long_lead_safe_speed s1 vEgo sm CS
               = get_long_lead_safe_speed self vEgo sm CS)
    by (apply get_long_lead_safe_speed_ext; exact Hmet).
  assert (Hm : min_set_speed_clu s1 = min_set_speed_clu self)
    by (unfold min_set_speed_clu, kph_to_clu; rewrite Hmet; reflexivity).
  destruct (lead_clamp_spec s1 vEgo sm CS c1) as (L1 & L2 & L3 & L4).
  rewrite Hl, Hm in L1, L2, L3, L4.
  set (l := get_long_lead_safe_speed self vEgo sm CS) in *.
  set (m := inject_Z (min_set_speed_clu self)) in *.
  rewrite !update_max_speed_limited_lead.
  assert (A : l < m -> limited_lead (fst (lead_clamp s1 vEgo sm CS c1)) = false)
    by (intro H; rewrite (L1 H); reflexivity).
  assert (B : m <= l -> c1 <= l ->
              limited_lead (fst (lead_clamp s1 vEgo sm CS c1))
              = limited_lead self)
    by (intros H1 H2; rewrite (L2 H1 H2); exact Hll).
  assert (C : m <= l -> l < c1 ->
              limited_lead (fst (lead_clamp s1 vEgo sm CS c1)) = true).
  { intros H1 H2. destruct (limited_lead s1) eqn:E.
    - rewrite (L3 H1 H2 eq_refl). exact E.
    - rewrite (L4 H1 H2 eq_refl). reflexivity. }
  split; [exact A | split; [| split; [| split; [exact B | split; [exact C |]]]]].
  - intros Hs Hf.
    destruct (Qlt_le_dec l m) as [H | H]; [exact H | exfalso].
    destruct (Qlt_le_dec l c1) as [H2 | H2].
    + rewrite (C H H2) in Hf. discriminate.
    + rewrite (B H H2) in Hf. congruence.
  - intros Hpos Hno.
    assert (Hz : l = 0).
    { unfold l, get_long_lead_safe_speed, get_lead.
      destruct Hno as [-> | Hno]; [reflexivity |].
      rewrite Hno. destruct (adaptiveCruise CS); reflexivity. }
    split; [exact Hz |]. apply A. rewrite Hz. exact Hpos.
  - split.
    + intros H1 H2 Hf. rewrite Hll in L4. rewrite (L4 H1 H2 Hf). reflexivity.
    + intros H1 H2 Hf. rewrite Hll in L3. rewrite (L3 H1 H2 Hf). reflexivity.
Qed.

(** *** The curve speed that runs *)

(** C1 describes the first definition of [cal_curve_speed]; the class
    runs the second.  On frame 10, with a model path whose length is not
    [TRAJECTORY_SIZE], the method that runs sets [curve_speed_ms] to 255,
    although 10 is no multiple of 20; the first definition would leave
    [self] as it is. *)
Theorem cal_curve_speed_frame_10 (self : Controls) (sm : SubMaster)
    (v_ego : Q) :
  length (position_x sm) <> TRAJECTORY_SIZE ->
  (10 mod 20 <> 0)%Z
  /\ cal_curve_speed = cal_curve_speed_608
  /\ curve_speed_ms (cal_curve_speed self sm v_ego 10) = 255
  /\ cal_curve_speed_278 self sm v_ego 10 = self.
Proof.
  intro Hlen. split; [discriminate | split; [reflexivity | split]].
  - rewrite cal_curve_speed_bound. unfold cal_curve_speed_608.
    change (10 mod 10 =? 0)%Z with true. cbv iota.
    apply Nat.eqb_neq in Hlen. rewrite Hlen. reflexivity.
  - unfold cal_curve_speed_278. reflexivity.
Qed.

End arbitration.

(** *** The arbitration on concrete inputs *)

(** A numpy without data: arrays carry nothing and every mean is nan.  It
    serves to run the code on inputs that never reach numpy. *)
#[local] Instance no_numpy : Numpy := {|
  ndarray := unit;
  np_array := fun _ => tt;
  np_gradient := fun _ _ => tt;
  np_add := fun _ _ => tt;
  np_div := fun _ _ => tt;
  np_rdiv := fun _ _ => tt;
  np_pow := fun _ _ => tt;
  np_slice := fun _ _ _ => tt;
  np_abs := fun _ => tt;
  np_clip_min := fun _ _ => tt;
  np_sqrt := fun _ => tt;
  np_mean := fun _ => None
|}.

(** A road speed limiter that reports a limit of 30 above 30 m/s and none
    below. *)
Definition sample_limiter (vEgo : Q) (_ : bool) : RoadLimit :=
  if Qlt_bool 30 vEgo then mkRoadLimit 30 30 100 false EmptyString
  else mkRoadLimit 0 0 0 false EmptyString.

Definition sample_interp (x : Q) (_ _ : list Q) : Q := x.

(** Metric conversions, [V_CRUISE_MIN = 8], curves off, a trajectory of
    33 points. *)
Definition sample_cal_max_speed
    : Controls -> Z -> Q -> SubMaster -> CarState
      -> Controls * (Q * Q * string) :=
  cal_max_speed (10 # 36) (36 # 10) (2237 # 1000) 8 false 10 33 1
    sample_interp sample_limiter.

(** A lead 30 m ahead closing at 3 m/s; no model path yet. *)
Definition sample_sm : SubMaster := mkSM (mkLead true 30 (-3)) [] [].

Definition CS_at (v : Q) : CarState :=
  mkCarState v 0 0%float [] [] true false false true false false false
    false false false false false.

(** Set-speed 60 km/h, smoothed set-speed 60, no lead clamp so far. *)
Definition sample_self : Controls :=
  mkControls true 60 60 0 false false false false.


(** The lead of scenario 5 at 22 m/s: the clamp condition holds and the
    safe speed is [22 - 0.001296]. *)
Lemma lead_safe_speed_witness :
  get_long_lead_safe_speed (10 # 36) (36 # 10) (2237 # 1000) 8
    sample_self 22 sample_sm sample_CS
  = py_max
      (22 + - (-3 / ((30 - 5) / -3)) * (36 # 10) * (1 # 1000))
      (inject_Z (min_set_speed_clu (10 # 36) (36 # 10) (2237 # 1000) 8
                   sample_self)).
Proof.
  apply (proj1 (lead_safe_speed (10 # 36) (36 # 10) (2237 # 1000) 8
                  sample_self 22 sample_sm sample_CS)).
  vm_compute. repeat split.
Defined.

(** Three ticks: a binding clamp at 22 m/s sets the flag and re-seeds to
    25; at 31 m/s the road limit makes the clamp non-binding and the flag
    stays; back at 22 m/s the clamp binds again and nothing is
    re-seeded. *)
Definition after_tick1 : Controls :=
  fst (sample_cal_max_speed sample_self 1 22 sample_sm (CS_at 22)).

Definition after_tick2 : Controls :=
  fst (sample_cal_max_speed after_tick1 2 31 sample_sm (CS_at 31)).

Definition after_tick3 : Controls :=
  fst (sample_cal_max_speed after_tick2 3 22 sample_sm (CS_at 22)).

Lemma limited_lead_trace :
  limited_lead after_tick1 = true
  /\ max_speed_clu after_tick1 == 25 + (22 - 25) * (1 # 100)
  /\ limited_lead after_tick2 = true
  /\ limited_lead after_tick3 = true
  /\ max_speed_clu after_tick3
     == max_speed_clu after_tick2 + (22 - max_speed_clu after_tick2) * (1 # 100)
  /\ ~ max_speed_clu after_tick3 == 25 + (22 - 25) * (1 # 100).
Proof. vm_compute. repeat split; discriminate. Qed.

Lemma limited_lead_hysteresis_witness :
  after_tick3
  = update_max_speed
      (fst (before_lead (10 # 36) (36 # 10) (2237 # 1000) false 10 33 1
              sample_interp sample_limiter after_tick2 3 22 sample_sm))
      22 (CS_at 22).
Proof.
  apply (proj2 (proj2 (proj2 (proj2 (proj2 (proj2
           (limited_lead_hysteresis (10 # 36) (36 # 10) (2237 # 1000) 8
              false 10 33 1 sample_interp sample_limiter
              after_tick2 3 22 sample_sm (CS_at 22)))))))).
  - vm_compute. discriminate.
  - vm_compute. reflexivity.
  - vm_compute. reflexivity.
Defined.

Lemma cal_curve_speed_frame_10_witness :
  (10 mod 20 <> 0)%Z
  /\ cal_curve_speed (10 # 36) 10 33 1 sample_interp
     = cal_curve_speed_608 (10 # 36) 33
  /\ curve_speed_ms
       (cal_curve_speed (10 # 36) 10 33 1 sample_interp
          sample_self sample_sm 22 10)
     = 255
  /\ cal_curve_speed_278 10 33 1 sample_interp sample_self sample_sm 22 10
     = sample_self.
Proof.
  apply (cal_curve_speed_frame_10 (10 # 36) 10 33 1 sample_interp
           sample_self sample_sm 22).
  simpl. discriminate.
Defined.

End Speed.

(** ** Actuation *)

Module LongControlState.
Inductive t : Set := off | pid | stopping | starting.
End LongControlState.

Module Actuation.

(* The decimal constants of the source (0.9, 0.115) round to the nearest
   binary64 number, as Python's do. *)
Local Set Warnings "-inexact-float".

(** Modelled from the spec: the [Actuators] record of [CarControl]
    (cereal's car.capnp is not in the sources), with the fields the data
    model lists: [accel], [steer], [steeringAngleDeg] and
    [longControlState]. *)
Record Actuators : Set := mkActuators {
  accel : float;
  steer : float;
  steeringAngleDeg : float;
  longControlState : LongControlState.t
}.

(** The names [getattr] and [setattr] go through. *)
Inductive field : Set :=
| f_accel | f_steer | f_steeringAngleDeg | f_longControlState.

(** What [getattr] yields: a number, or an enumerant, which is no
    [Number]. *)
Inductive value : Set :=
| Num (x : float)
| Enum (s : LongControlState.t).

Definition getattr (a : Actuators) (p : field) : value :=
  match p with
  | f_accel => Num (accel a)
  | f_steer => Num (steer a)
  | f_steeringAngleDeg => Num (steeringAngleDeg a)
  | f_longControlState => Enum (longControlState a)
  end.

(** [setattr(actuators, p, x)] for a number [x]; the guard never calls it
    on the enumerated field. *)
Definition setattr (a : Actuators) (p : field) (x : float) : Actuators :=
  match p with
  | f_accel =>
      mkActuators x (steer a) (steeringAngleDeg a) (longControlState a)
  | f_steer =>
      mkActuators (accel a) x (steeringAngleDeg a) (longControlState a)
  | f_steeringAngleDeg =>
      mkActuators (accel a) (steer a) x (longControlState a)
  | f_longControlState => a
  end.

(** [log.ControlsState.LateralDebugState] and the logs of the lateral
    controllers: the fields [state_control] writes or reads. *)
Record LacLog : Set := mkLacLog {
  lac_active : bool;
  lac_steeringAngleDeg : float;
  lac_output : float;
  lac_saturated : bool
}.

(** [sm['testJoystick']] *)
Record Joystick : Set := mkJoystick { axes : list float; buttons : list bool }.

(** The telemetry [state_control] reads besides what it hands on to the
    controllers. *)
Record SubMaster : Set := mkSM {
  frame : Z;
  rcv_frame_testJoystick : Z;
  testJoystick : Joystick;
  dPathPoints : list float
}.

(** One [cloudlog.error] of the guard: the field and the record as it was. *)
Record LogEntry : Set := mkLog { log_field : field; log_actuators : Actuators }.

Section control.

(** The longitudinal controller [LoC] and the lateral controller [LaC]
    (with the vehicle model, the live parameters and the plans they
    consume) are external: their state is opaque and their updates hand
    back binary64 numbers. *)
Variables LongControl LatControl Plans : Type.
Variable long_control_state : LongControl -> LongControlState.t.
Variable LoC_reset : LongControl -> Q -> LongControl.
Variable LoC_update :
  LongControl -> bool -> CarState -> Plans -> Q * Q -> float * LongControl.
Variable LaC_reset : LatControl -> LatControl.
Variable LaC_update :
  LatControl -> bool -> CarState -> Plans -> float * float * LacLog * LatControl.

(** [CI.get_pid_accel_limits(CP, vEgo, v_cruise)] of the car interface,
    [clip] of common/numpy_fast.py and [CV.KPH_TO_MS]. *)
Variable get_pid_accel_limits : Q -> Q -> Q * Q.
Variable clip : float -> float -> float -> float.
Variable CV_KPH_TO_MS : Q.

(** [ACTUATOR_FIELDS]: the keys of the schema, a set; the guard visits
    them in some order. *)
Variable ACTUATOR_FIELDS : list field.

(** The attributes of [self] that [state_control] reads or writes. *)
Record Controls : Type := mkControls {
  state : State.t;
  active : bool;
  joystick_mode : bool;
  steerControlType_angle : bool;
  minSteerSpeed : Q;
  v_cruise_kph : Q;
  LoC : LongControl;
  LaC : LatControl;
  last_blinker_frame : Z;
  saturated_count : Z;
  events : list EventName.t;
  cloudlog : list LogEntry
}.

Definition set_LoC (s : Controls) (v : LongControl) : Controls :=
  mkControls (state s) (active s) (joystick_mode s) (steerControlType_angle s)
    (minSteerSpeed s) (v_cruise_kph s) v (LaC s) (last_blinker_frame s)
    (saturated_count s) (events s) (cloudlog s).

Definition set_LaC (s : Controls) (v : LatControl) : Controls :=
  mkControls (state s) (active s) (joystick_mode s) (steerControlType_angle s)
    (minSteerSpeed s) (v_cruise_kph s) (LoC s) v (last_blinker_frame s)
    (saturated_count s) (events s) (cloudlog s).

Definition set_last_blinker_frame (s : Controls) (v : Z) : Controls :=
  mkControls (state s) (active s) (joystick_mode s) (steerControlType_angle s)
    (minSteerSpeed s) (v_cruise_kph s) (LoC s) (LaC s) v
    (saturated_count s) (events s) (cloudlog s).

Definition set_saturated_count (s : Controls) (v : Z) : Controls :=
  mkControls (state s) (active s) (joystick_mode s) (steerControlType_angle s)
    (minSteerSpeed s) (v_cruise_kph s) (LoC s) (LaC s) (last_blinker_frame s)
    v (events s) (cloudlog s).

Definition set_events (s : Controls) (v : list EventName.t) : Controls :=
  mkControls (state s) (active s) (joystick_mode s) (steerControlType_angle s)
    (minSteerSpeed s) (v_cruise_kph s) (LoC s) (LaC s) (last_blinker_frame s)
    (saturated_count s) v (cloudlog s).

Definition set_cloudlog (s : Controls) (v : list LogEntry) : Controls :=
  mkControls (state s) (active s) (joystick_mode s) (steerControlType_angle s)
    (minSteerSpeed s) (v_cruise_kph s) (LoC s) (LaC s) (last_blinker_frame s)
    (saturated_count s) (events s) v.

(** [STEER_ANGLE_SATURATION_TIMEOUT = 1.0 / DT_CTRL] and
    [STEER_ANGLE_SATURATION_THRESHOLD = 2.5  # Degrees] *)
Definition STEER_ANGLE_SATURATION_TIMEOUT : Q := 1 / DT_CTRL.
Definition STEER_ANGLE_SATURATION_THRESHOLD : float := 2.5%float.

(** Lines 744-769: the controllers, or the joystick.  [None] is the
    [IndexError] of a joystick message with fewer than two axes. *)
Definition compute_actuators (self : Controls) (CS : CarState)
    (sm : SubMaster) (plans : Plans) (actuators : Actuators)
    : option (Controls * Actuators * LacLog) :=
  if negb (joystick_mode self) then
    let pid_accel_limits :=
      get_pid_accel_limits (vEgo CS) (v_cruise_kph self * CV_KPH_TO_MS) in
    let '(a, loc) :=
      LoC_update (LoC self) (active self) CS plans pid_accel_limits in
    let self := set_LoC self loc in
    let actuators :=
      mkActuators a (steer actuators) (steeringAngleDeg actuators)
        (longControlState actuators) in
    let lat_active :=
      active self && negb (steerWarning CS) && negb (steerError CS)
      && Qlt_bool (minSteerSpeed self) (vEgo CS) in
    let '(st, angle, lac_log, lac) :=
      LaC_update (LaC self) lat_active CS plans in
    let self := set_LaC self lac in
    Some (self,
          mkActuators (accel actuators) st angle (longControlState actuators),
          lac_log)
  else
    let lac_log := mkLacLog false 0%float 0%float false in
    if (rcv_frame_testJoystick sm >? 0) && active self then
      match axes (testJoystick sm) with
      | axis0 :: axis1 :: _ =>
          let a := (4.0 * clip axis0 (-1) 1)%float in
          let steer := clip axis1 (-1) 1 in
          let actuators :=
            mkActuators a steer (steer * 45.0)%float
              (longControlState actuators) in
          let lac_log :=
            mkLacLog true (CS_steeringAngleDeg CS) steer
              (PrimFloat.leb 0.9%float (PrimFloat.abs steer)) in
          Some (self, actuators, lac_log)
      | _ => None
      end
    else Some (self, actuators, lac_log).

(** Lines 771-790: the lateral saturation detector. *)
Definition saturation_check (self : Controls) (CS : CarState)
    (sm : SubMaster) (actuators : Actuators) (lac_log : LacLog) : Controls :=
  let angle_control_saturated :=
    steerControlType_angle self
    && PrimFloat.ltb STEER_ANGLE_SATURATION_THRESHOLD
         (PrimFloat.abs
            (steeringAngleDeg actuators - CS_steeringAngleDeg CS)%float) in
  let self :=
    if angle_control_saturated && negb (steeringPressed CS) && active self
    then set_saturated_count self (saturated_count self + 1)
    else set_saturated_count self 0 in
  if (lac_saturated lac_log && negb (steeringPressed CS))
     || Qlt_bool STEER_ANGLE_SATURATION_TIMEOUT
          (inject_Z (saturated_count self))
  then
    match dPathPoints sm with
    | d0 :: _ =>
        let left_deviation :=
          PrimFloat.ltb 0 (steer actuators)
          && PrimFloat.ltb d0 (-0.115)%float in
        let right_deviation :=
          PrimFloat.ltb (steer actuators) 0
          && PrimFloat.ltb 0.115%float d0 in
        if left_deviation || right_deviation
        then set_events self (events self ++ [EventName.steerSaturated])
        else self
    | [] => self
    end
  else self.

(** Lines 794-800: one turn of the loop [for p in ACTUATOR_FIELDS]. *)
Definition ensure_finite_field (st : Controls * Actuators) (p : field)
    : Controls * Actuators :=
  let '(self, actuators) := st in
  match getattr actuators p with
  | Enum _ => st
  | Num attr =>
      if negb (PrimFloat.is_finite attr) then
        (set_cloudlog self (cloudlog self ++ [mkLog p actuators]),
         setattr actuators p 0%float)
      else st
  end.

(** Lines 792-800: [# Ensure no NaNs/Infs]. *)
Definition ensure_finite (self : Controls) (actuators : Actuators)
    : Controls * Actuators :=
  fold_left ensure_finite_field ACTUATOR_FIELDS (self, actuators).

(** Lines 729-769 of [state_control]: the actuators as the controllers
    or the joystick give them, before the saturation detector and the
    guard. *)
Definition controller_outputs (self : Controls) (CS : CarState)
    (sm : SubMaster) (plans : Plans)
    : option (Controls * Actuators * LacLog) :=
  let actuators :=
    mkActuators 0%float 0%float 0%float (long_control_state (LoC self)) in
  let self :=
    if leftBlinker CS || rightBlinker CS
    then set_last_blinker_frame self (frame sm) else self in
  let self :=
    if negb (active self)
    then set_LoC (set_LaC self (LaC_reset (LaC self)))
           (LoC_reset (LoC self) (vEgo CS))
    else self in
  compute_actuators self CS sm plans actuators.

(** [state_control(self, CS)], lines 714-802.  (The refresh of the
    vehicle model, lines 717-727, happens inside the opaque lateral
    controller.) *)
Definition state_control (self : Controls) (CS : CarState) (sm : SubMaster)
    (plans : Plans) : option (Controls * Actuators * LacLog) :=
  match controller_outputs self CS sm plans with
  | None => None
  | Some (self, actuators, lac_log) =>
      let self := saturation_check self CS sm actuators lac_log in
      let '(self, actuators) := ensure_finite self actuators in
      Some (self, actuators, lac_log)
  end.

(** *** The finiteness guard *)

(** What the guard makes of one value. *)
Definition guarded (v : value) : value :=
  match v with
  | Num x => Num (if PrimFloat.is_finite x then x else 0%float)
  | Enum s => Enum s
  end.

Definition non_finite (v : value) : bool :=
  match v with
  | Num x => negb (PrimFloat.is_finite x)
  | Enum _ => false
  end.

Definition field_eqb (p q : field) : bool :=
  match p, q with
  | f_accel, f_accel | f_steer, f_steer
  | f_steeringAngleDeg, f_steeringAngleDeg
  | f_longControlState, f_longControlState => true
  | _, _ => false
  end.

Lemma field_eqb_eq p q : field_eqb p q = true <-> p = q.
Proof. destruct p, q; cbn; split; congruence. Qed.

Lemma guarded_finite v x :
  guarded v = Num x -> PrimFloat.is_finite x = true.
Proof.
  destruct v as [y | s]; cbn; [| discriminate].
  destruct (PrimFloat.is_finite y) eqn:E; intro H; inversion H; subst.
  - exact E.
  - reflexivity.
Qed.

Lemma guarded_idem v : guarded (guarded v) = guarded v.
Proof.
  destruct v as [y | s]; cbn; [| reflexivity].
  destruct (PrimFloat.is_finite y) eqn:E; [rewrite E |]; reflexivity.
Qed.

Lemma non_finite_guarded v : non_finite (guarded v) = false.
Proof.
  destruct v as [y | s]; cbn; [| reflexivity].
  destruct (PrimFloat.is_finite y) eqn:E; [rewrite E |]; reflexivity.
Qed.

(** One turn of the loop: the visited field is guarded, the others and
    the engagement state stay, and an error is logged exactly when the
    value was not finite. *)
Lemma ensure_finite_field_spec self a p :
  let self' := fst (ensure_finite_field (self, a) p) in
  let a' := snd (ensure_finite_field (self, a) p) in
  state self' = state self
  /\ cloudlog self'
     = cloudlog self
       ++ (if non_finite (getattr a p) then [mkLog p a] else [])
  /\ forall q,
       getattr a' q
       = if field_eqb p q then guarded (getattr a q) else getattr a q.
Proof.
  cbv zeta. unfold ensure_finite_field.
  destruct p; cbn [getattr non_finite].
  4: { cbn. rewrite app_nil_r. repeat split.
       intro q; destruct q; reflexivity. }
  all: match goal with
       | |- context [PrimFloat.is_finite ?x] =>
           destruct (PrimFloat.is_finite x) eqn:E
       end; cbn; rewrite ?app_nil_r; repeat split;
    intro q; destruct q; cbn; rewrite ?E; reflexivity.
Qed.

(** The loop over any list of fields. *)
Lemma ensure_finite_loop fields : forall self a,
  let self' := fst (fold_left ensure_finite_field fields (self, a)) in
  let a' := snd (fold_left ensure_finite_field fields (self, a)) in
  state self' = state self
  /\ (exists new,
        cloudlog self' = cloudlog self ++ new
        /\ forall q, In q (map log_field new)
                     <-> In q fields /\ non_finite (getattr a q) = true)
  /\ forall q,
       getattr a' q
       = if existsb (fun p => field_eqb p q) fields
         then guarded (getattr a q) else getattr a q.
Proof.
  induction fields as [| p fields IH]; intros self a; cbv zeta.
  - cbn. split; [reflexivity | split; [| reflexivity]].
    exists []. rewrite app_nil_r. split; [reflexivity |].
    intro q. cbn. tauto.
  - cbn [fold_left].
    destruct (ensure_finite_field_spec self a p) as (S1 & L1 & G1).
    destruct (ensure_finite_field (self, a) p) as [self1 a1].
    cbn [fst snd] in S1, L1, G1.
    destruct (IH self1 a1) as (S2 & (new & L2 & N2) & G2).
    split; [congruence | split].
    + exists ((if non_finite (getattr a p) then [mkLog p a] else []) ++ new).
      split; [rewrite L2, L1, app_assoc; reflexivity |].
      intro q. rewrite map_app, in_app_iff, N2, G1. cbn [In].
      destruct (field_eqb p q) eqn:E.
      * apply field_eqb_eq in E. subst q.
        rewrite non_finite_guarded.
        destruct (non_finite (getattr a p)); cbn; intuition discriminate.
      * assert (p <> q) by (intro; subst; destruct q; discriminate).
        destruct (non_finite (getattr a p)); cbn; intuition congruence.
    + intro q. rewrite G2, G1. cbn [existsb].
      destruct (field_eqb p q); cbn [orb].
      * rewrite guarded_idem. destruct (existsb _ fields); reflexivity.
      * reflexivity.
Qed.

Lemma saturation_check_frame self CS sm a l :
  state (saturation_check self CS sm a l) = state self
  /\ cloudlog (saturation_check self CS sm a l) = cloudlog self.
Proof.
  unfold saturation_check. cbv zeta.
  repeat match goal with
  | |- context [if ?b then _ else _] => destruct b; cbn
  | |- context [match dPathPoints sm with _ => _ end] =>
      destruct (dPathPoints sm); cbn
  end; split; reflexivity.
Qed.

Lemma controller_outputs_frame self CS sm plans self0 raw l :
  controller_outputs self CS sm plans = Some (self0, raw, l) ->
  state self0 = state self /\ cloudlog self0 = cloudlog self.
Proof.
  unfold controller_outputs, compute_actuators. cbv zeta.
  set (s1 := if leftBlinker CS || rightBlinker CS
             then set_last_blinker_frame self (frame sm) else self).
  assert (H1 : state s1 = state self /\ cloudlog s1 = cloudlog self
               /\ active s1 = active self
               /\ joystick_mode s1 = joystick_mode self)
    by (unfold s1; destruct (_ || _); cbn; auto).
  destruct H1 as (A1 & A2 & A3 & A4).
  set (s2 := if negb (active s1)
             then set_LoC (set_LaC s1 (LaC_reset (LaC s1)))
                    (LoC_reset (LoC s1) (vEgo CS))
             else s1).
  assert (H2 : state s2 = state self /\ cloudlog s2 = cloudlog self)
    by (unfold s2; destruct (negb _); cbn; auto).
  destruct H2 as (B1 & B2).
  destruct (negb (joystick_mode s2)).
  - destruct (LoC_update _ _ _ _ _) as [a loc]. cbn.
    destruct (LaC_update _ _ _ _) as [[[st angle] lg] lac].
    intro H. inversion H; subst. cbn. auto.
  - destruct ((rcv_frame_testJoystick sm >? 0) && active s2).
    + destruct (axes (testJoystick sm)) as [| a0 [| a1 rest]];
        try discriminate.
      intro H. inversion H; subst. auto.
    + intro H. inversion H; subst. auto.
Qed.

(** C4.  Whatever the controllers or the joystick hand back, every
    numeric field of the [Actuators] record that [state_control] returns
    is finite: a field the guard visits keeps a finite value and gets 0.0
    for a non-finite one, an error is logged for exactly the non-finite
    fields, and the engagement state is left as it was.  [state_control]
    does return a record, except for the [IndexError] of a joystick
    message with fewer than two axes. *)
Theorem actuators_finite (self : Controls) (CS : CarState) (sm : SubMaster)
    (plans : Plans) :
  (forall p, In p ACTUATOR_FIELDS) ->
  (joystick_mode self = false
   \/ (2 <= length (axes (testJoystick sm)))%nat ->
   state_control self CS sm plans <> None)
  /\ forall self' actuators lac_log,
       state_control self CS sm plans = Some (self', actuators, lac_log) ->
       exists self0 raw new,
         controller_outputs self CS sm plans = Some (self0, raw, lac_log)
         /\ (forall p, getattr actuators p = guarded (getattr raw p))
         /\ (forall p x,
               getattr actuators p = Num x -> PrimFloat.is_finite x = true)
         /\ cloudlog self' = cloudlog self ++ new
         /\ (forall p, In p (map log_field new)
                       <-> non_finite (getattr raw p) = true)
         /\ state self' = state self.
Proof.
  intro Hall. split.
  - intro Hj. unfold state_control.
    destruct (controller_outputs self CS sm plans) as [[[s0 raw] l] |] eqn:E.
    + destruct (ensure_finite _ raw). discriminate.
    + exfalso. revert E.
      unfold controller_outputs, compute_actuators. cbv zeta.
      set (s2 := if negb (active _) then _ else _).
      assert (Hjm : joystick_mode s2 = joystick_mode self).
      { unfold s2.
        destruct (leftBlinker CS || rightBlinker CS); cbn;
          destruct (negb (active self)); reflexivity. }
      rewrite Hjm. destruct (joystick_mode self); cbn [negb].
      * destruct Hj as [Hj | Hj]; [discriminate |].
        destruct ((rcv_frame_testJoystick sm >? 0) && active s2);
          [| discriminate].
        destruct (axes (testJoystick sm)) as [| a0 [| a1 rest]];
          cbn in Hj; try lia. discriminate.
      * destruct (LoC_update _ _ _ _ _) as [a loc]. cbn.
        destruct (LaC_update _ _ _ _) as [[[st angle] lg] lac].
        discriminate.
  - intros self' actuators lac_log. unfold state_control.
    destruct (controller_outputs self CS sm plans) as [[[s0 raw] l] |] eqn:E;
      [| discriminate].
    destruct (controller_outputs_frame _ _ _ _ _ _ _ E) as [F1 F2].
    destruct (saturation_check_frame s0 CS sm raw l) as [C1 C2].
    unfold ensure_finite.
    destruct (ensure_finite_loop ACTUATOR_FIELDS
                (saturation_check s0 CS sm raw l) raw)
      as (S & (new & L & N) & G).
    destruct (fold_left ensure_finite_field ACTUATOR_FIELDS
                (saturation_check s0 CS sm raw l, raw)) as [s1 a1].
    cbn [fst snd] in S, L, G.
    intro H. inversion H; subst self' actuators lac_log. clear H.
    assert (Hg : forall p, getattr a1 p = guarded (getattr raw p)).
    { intro p. rewrite G.
      assert (Hin : existsb (fun q => field_eqb q p) ACTUATOR_FIELDS = true).
      { apply existsb_exists. exists p. split; [apply Hall |].
        now apply field_eqb_eq. }
      rewrite Hin. reflexivity. }
    exists s0, raw, new. split; [reflexivity |].
    split; [exact Hg | split; [| split; [| split]]].
    + intros p x Hp. rewrite Hg in Hp. exact (guarded_finite _ _ Hp).
    + rewrite L. congruence.
    + intro p. rewrite N. split; [tauto | auto].
    + congruence.
Qed.

End control.

(** *** The guard on concrete inputs *)

(** Controllers without state: the longitudinal one hands back an
    acceleration of 0.5, the lateral one a NaN torque and an infinite
    angle. *)
Definition sample_LoC_update (_ : unit) (_ : bool) (_ : CarState) (_ : unit)
    (_ : Q * Q) : float * unit :=
  (0.5%float, tt).

Definition sample_LaC_update (_ : unit) (_ : bool) (_ : CarState) (_ : unit)
    : float * float * LacLog * unit :=
  (nan, infinity, mkLacLog true 0%float nan false, tt).

Definition sample_clip (x lo hi : float) : float :=
  if PrimFloat.ltb x lo then lo else if PrimFloat.ltb hi x then hi else x.

Definition sample_fields : list field :=
  [f_steer; f_longControlState; f_accel; f_steeringAngleDeg].

Definition sample_state_control (self : Controls unit unit) (CS : CarState)
    (sm : SubMaster) : option (Controls unit unit * Actuators * LacLog) :=
  state_control unit unit unit (fun _ => LongControlState.pid)
    (fun _ _ => tt) sample_LoC_update (fun _ => tt) sample_LaC_update
    (fun _ _ => (-1, 1)%Q) sample_clip (10 # 36) sample_fields self CS sm tt.

Definition sample_self : Controls unit unit :=
  mkControls unit unit State.enabled true false false 0 60 tt tt 0 0 [] [].

Definition sample_sm : SubMaster := mkSM 1000 0 (mkJoystick [] []) [].

(** Scenario 6: the NaN torque and the infinite angle come out as 0.0,
    two errors are logged and the state is still [enabled]. *)
Lemma actuators_finite_example :
  match sample_state_control sample_self sample_CS sample_sm with
  | Some (self', actuators, _) =>
      actuators = mkActuators 0.5%float 0%float 0%float LongControlState.pid
      /\ map log_field (cloudlog unit unit self')
         = [f_steer; f_steeringAngleDeg]
      /\ state unit unit self' = State.enabled
  | None => False
  end.
Proof. vm_compute. repeat split. Qed.

Lemma actuators_finite_witness :
  match sample_state_control sample_self sample_CS sample_sm with
  | Some (_, actuators, _) =>
      PrimFloat.is_finite (steer actuators) = true
      /\ PrimFloat.is_finite (steeringAngleDeg actuators) = true
  | None => False
  end.
Proof.
  pose proof
    (actuators_finite unit unit unit
       (fun _ => LongControlState.pid) (fun _ _ => tt)
       sample_LoC_update (fun _ => tt) sample_LaC_update
       (fun _ _ => (-1, 1)%Q) sample_clip (10 # 36) sample_fields
       sample_self sample_CS sample_sm tt
       (fun p => match p with
                 | f_accel => or_intror (or_intror (or_introl eq_refl))
                 | f_steer => or_introl eq_refl
                 | f_steeringAngleDeg =>
                     or_intror (or_intror (or_intror (or_introl eq_refl)))
                 | f_longControlState => or_intror (or_introl eq_refl)
                 end)) as [Hret Hfin].
  fold (sample_state_control sample_self sample_CS sample_sm) in Hret, Hfin.
  destruct (sample_state_control sample_self sample_CS sample_sm)
    as [[[self' actuators] lac_log] |].
  - destruct (Hfin self' actuators lac_log eq_refl)
      as (_ & _ & _ & _ & _ & H & _).
    split; [exact (H f_steer _ eq_refl)
           | exact (H f_steeringAngleDeg _ eq_refl)].
  - apply Hret; [left; reflexivity | reflexivity].
Defined.

End Actuation.

(** ** Publication *)

Module Publish.

(** The attributes of [self] the head of [publish_logs] reads. *)
Record Controls : Set := mkControls {
  enabled : bool;
  active : bool;
  joystick_mode : bool;
  CP : CarParams;
  v_cruise_kph : Q
}.

(** The telemetry it reads. *)
Record SubMaster : Set := mkSM {
  rcv_frame_testJoystick : Z;
  testJoystick : Actuation.Joystick;
  hasLead : bool
}.

(** The fields of [CarControl] set by lines 817-836. *)
Record CarControl : Set := mkCarControl {
  CC_enabled : bool;
  CC_active : bool;
  CC_actuators : Actuation.Actuators;
  cruiseControl_cancel : bool;
  hudControl_setSpeed : Q;
  hudControl_speedVisible : bool;
  hudControl_lanesVisible : bool;
  hudControl_leadVisible : bool;
  hudControl_rightLaneVisible : bool;
  hudControl_leftLaneVisible : bool
}.

Section publish.

(** [CV.KPH_TO_MS] *)
Variable CV_KPH_TO_MS : Q.

(** Line 827: [self.joystick_mode and self.sm.rcv_frame['testJoystick'] > 0
    and self.sm['testJoystick'].buttons[0]]; [None] is the [IndexError]
    of an empty [buttons]. *)
Definition joystick_cancel (self : Controls) (sm : SubMaster) : option bool :=
  if joystick_mode self && (rcv_frame_testJoystick sm >? 0) then
    nth_error (Actuation.buttons (testJoystick sm)) 0
  else Some false.

(** Lines 817-836 of [publish_logs(self, CS, start_time, actuators,
    lac_log)]: the [CarControl] message up to the lane flags. *)
Definition car_control (self : Controls) (CS : CarState) (sm : SubMaster)
    (actuators : Actuation.Actuators) : option CarControl :=
  let cancel :=
    cruiseState_enabled CS
    && (negb (enabled self) || negb (pcmCruise (CP self))) in
  match joystick_cancel self sm with
  | None => None
  | Some pressed =>
      let cancel := if pressed then true else cancel in
      Some (mkCarControl (enabled self) (active self) actuators cancel
              (v_cruise_kph self * CV_KPH_TO_MS) (enabled self)
              (enabled self) (hasLead sm) true true)
  end.

(** C5, as amended.  Unless the joystick message has no button to read,
    [CarControl.cruiseControl.cancel] is published, and it is true
    exactly when [CarState.cruiseState.enabled] holds and the
    supervisor's [enabled] flag or [CarParams.pcmCruise] is false, or
    when joystick debug mode is on, a [testJoystick] message has been
    received and its button 0 is set.  Outside joystick debug mode the
    second case does not arise. *)
Theorem cancel_iff (self : Controls) (CS : CarState) (sm : SubMaster)
    (actuators : Actuation.Actuators) :
  (joystick_mode self = true -> 0 < rcv_frame_testJoystick sm ->
   Actuation.buttons (testJoystick sm) <> []) ->
  exists CC,
    car_control self CS sm actuators = Some CC
    /\ (cruiseControl_cancel CC = true <->
        (cruiseState_enabled CS = true
         /\ (enabled self = false \/ pcmCruise (CP self) = false))
        \/ (joystick_mode self = true /\ 0 < rcv_frame_testJoystick sm
            /\ nth_error (Actuation.buttons (testJoystick sm)) 0 = Some true))
    /\ (joystick_mode self = false ->
        (cruiseControl_cancel CC = true <->
         cruiseState_enabled CS = true
         /\ (enabled self = false \/ pcmCruise (CP self) = false))).
Proof.
  intro Hb. unfold car_control, joystick_cancel.
  assert (Hc : cruiseState_enabled CS
               && (negb (enabled self) || negb (pcmCruise (CP self))) = true
               <-> cruiseState_enabled CS = true
                   /\ (enabled self = false \/ pcmCruise (CP self) = false)).
  { rewrite andb_true_iff, orb_true_iff, !negb_true_iff. reflexivity. }
  destruct (joystick_mode self) eqn:Hj; cbn [andb].
  - destruct (rcv_frame_testJoystick sm >? 0) eqn:Hr.
    + apply Z.gtb_lt in Hr.
      destruct (Actuation.buttons (testJoystick sm)) as [| b0 bs] eqn:Hbs.
      * exfalso. exact (Hb eq_refl Hr eq_refl).
      * cbn [nth_error]. eexists. split; [reflexivity |].
        cbn [cruiseControl_cancel]. split; [| discriminate].
        destruct b0.
        -- split; [intros _; right; auto | reflexivity].
        -- rewrite Hc. split; [tauto |].
           intros [H | (_ & _ & H)]; [exact H | discriminate].
    + eexists. split; [reflexivity |]. cbn [cruiseControl_cancel].
      split; [| discriminate].
      rewrite Hc. split; [tauto |].
      intros [H | (_ & H & _)]; [exact H |].
      rewrite Z.gtb_ltb in Hr. apply Z.ltb_ge in Hr. lia.
  - eexists. split; [reflexivity |]. cbn [cruiseControl_cancel].
    split.
    + rewrite Hc. split; [tauto |].
      intros [H | (H & _)]; [exact H | discriminate].
    + intros _. exact Hc.
Qed.

End publish.

(** *** The cancel flag on concrete inputs *)

Definition sample_actuators : Actuation.Actuators :=
  Actuation.mkActuators 0%float 0%float 0%float LongControlState.off.

(** Joystick debug mode, engaged, PCM cruise. *)
Definition joystick_self : Controls :=
  mkControls true true true (mkCarParams [] true true) 60.

(** A joystick message with button 0 set. *)
Definition joystick_sm : SubMaster :=
  mkSM 1 (Actuation.mkJoystick [0%float; 0%float] [true]) false.

(** The car's own cruise is off. *)
Definition cruise_off_CS : CarState := sample_CS.

(** C5, as stated, fails: in joystick debug mode with button 0 set,
    [cancel] is published true although [cruiseState.enabled] is
    false. *)
Lemma cancel_joystick_counterexample :
  cruiseState_enabled cruise_off_CS = false
  /\ option_map cruiseControl_cancel
       (car_control (10 # 36) joystick_self cruise_off_CS joystick_sm
          sample_actuators)
     = Some true.
Proof. split; reflexivity. Qed.

Lemma cancel_iff_witness :
  exists CC,
    car_control (10 # 36) joystick_self cruise_off_CS joystick_sm
      sample_actuators = Some CC
    /\ (cruiseControl_cancel CC = true <->
        (cruiseState_enabled cruise_off_CS = true
         /\ (enabled joystick_self = false
             \/ pcmCruise (CP joystick_self) = false))
        \/ (joystick_mode joystick_self = true
            /\ 0 < rcv_frame_testJoystick joystick_sm
            /\ nth_error (Actuation.buttons (testJoystick joystick_sm)) 0
               = Some true))
    /\ (joystick_mode joystick_self = false ->
        (cruiseControl_cancel CC = true <->
         cruiseState_enabled cruise_off_CS = true
         /\ (enabled joystick_self = false
             \/ pcmCruise (CP joystick_self) = false))).
Proof.
  apply (cancel_iff (10 # 36) joystick_self cruise_off_CS joystick_sm
           sample_actuators).
  simpl. discriminate.
Defined.

End Publish.
